(** * DeepfakeVerification: the on-chain identity and verification registry

    A shallow embedding of [contracts/DeepfakeVerification.sol] and the
    properties of the registry stated over it.

    - [uint256], [bytes32] and [address] values are integers ([Z]); the
      checked arithmetic of Solidity 0.8 is written out ([checked_incr]).
    - Solidity mappings are finite maps read with the type's zero value as
      default; [delete] removes the key.
    - An external call is a function from the storage to a [Result]: it
      either returns with a new storage and the events it emitted, or
      reverts with a reason string, or panics.  The EVM discards every
      write of a call that does not return ([transact]).
    - [keccak256] and [ecrecover] are built-ins of the EVM and are taken as
      an interface ([EVM]). *)

From Stdlib Require Import ZArith Lia Bool.
From Stdlib Require Import Strings.Byte Strings.Ascii.
From stdpp Require Import base option list gmap strings.

Local Open Scope Z_scope.

(** ** Words and byte strings *)

Module Bytes.

Definition Z_of_byte (b : byte) : Z := Z.of_N (Byte.to_N b).

Definition byte_of_Z (z : Z) : byte :=
  match Byte.of_N (Z.to_N (z mod 256)) with
  | Some b => b
  | None => x00
  end.

(** [n] bytes, most significant first: the layout of a [uintN]/[bytesN]
    value under [abi.encodePacked] and in memory. *)
Fixpoint be_bytes (n : nat) (z : Z) : list byte :=
  match n with
  | O => []
  | S k => be_bytes k (z / 256) ++ [byte_of_Z (z mod 256)]
  end.

(** The word a big-endian byte string denotes ([mload] of 32 bytes). *)
Definition be_decode (l : list byte) : Z :=
  fold_left (fun acc b => acc * 256 + Z_of_byte b) l 0.

Definition bool_byte (b : bool) : byte := if b then x01 else x00.

End Bytes.

Import Bytes.

Definition max_uint256 : Z := 2 ^ 256 - 1.

(** ** Built-ins of the EVM *)

Class EVM := {
  (** [keccak256(bytes) returns (bytes32)] *)
  keccak256 : list byte -> Z;
  (** [ecrecover(hash, v, r, s) returns (address)]; the zero address when
      the signature does not recover. *)
  ecrecover : Z -> Z -> Z -> Z -> Z;
  (** A [bytes32] is a 256-bit word. *)
  keccak256_range : forall bs, 0 <= keccak256 bs < 2 ^ 256
}.

(** ** Structs *)

Module DIDDocument.
Record t := mk {
  owner : Z;
  did : string;
  publicKeyBase58 : string;
  isActive : bool;
  createdAt : Z;
  updatedAt : Z
}.
(** The value a mapping reads at a key never written. *)
Definition zero : t := mk 0 "" "" false 0 0.
Definition set_publicKeyBase58 (k : string) (d : t) : t :=
  mk (owner d) (did d) k (isActive d) (createdAt d) (updatedAt d).
Definition set_isActive (b : bool) (d : t) : t :=
  mk (owner d) (did d) (publicKeyBase58 d) b (createdAt d) (updatedAt d).
Definition set_updatedAt (ts : Z) (d : t) : t :=
  mk (owner d) (did d) (publicKeyBase58 d) (isActive d) (createdAt d) ts.
End DIDDocument.

Module VerificationResult.
Record t := mk {
  imageHash : Z;
  subjectDid : string;
  issuerDid : string;
  isReal : bool;
  confidence : Z;
  timestamp : Z;
  credentialHash : Z
}.
Definition zero : t := mk 0 "" "" false 0 0 0.
End VerificationResult.

Module ZKProof.
Record t := mk {
  proofHash : Z;
  publicInputHash : Z;
  isValid : bool;
  timestamp : Z
}.
Definition zero : t := mk 0 0 false 0.
End ZKProof.

(** ** Storage *)

Record State := mkState {
  didDocuments : gmap Z DIDDocument.t;
  didToAddress : gmap string Z;
  verificationResults : gmap Z VerificationResult.t;
  zkProofs : gmap Z ZKProof.t;
  authorizedIssuers : gmap Z bool;
  owner : Z;
  oracleSigner : Z;
  totalDIDs : Z;
  totalVerifications : Z
}.

(** Reads of the mappings: [m[k]]. *)
Definition didDocuments_at (st : State) (a : Z) : DIDDocument.t :=
  default DIDDocument.zero (didDocuments st !! a).
Definition didToAddress_at (st : State) (d : string) : Z :=
  default 0 (didToAddress st !! d).
Definition verificationResults_at (st : State) (h : Z) : VerificationResult.t :=
  default VerificationResult.zero (verificationResults st !! h).
Definition zkProofs_at (st : State) (h : Z) : ZKProof.t :=
  default ZKProof.zero (zkProofs st !! h).
Definition authorizedIssuers_at (st : State) (a : Z) : bool :=
  default false (authorizedIssuers st !! a).

(** Writes of the storage variables. *)
Definition set_didDocuments (f : gmap Z DIDDocument.t -> gmap Z DIDDocument.t) (st : State) : State :=
  mkState (f (didDocuments st)) (didToAddress st) (verificationResults st) (zkProofs st)
          (authorizedIssuers st) (owner st) (oracleSigner st) (totalDIDs st) (totalVerifications st).
Definition set_didToAddress (f : gmap string Z -> gmap string Z) (st : State) : State :=
  mkState (didDocuments st) (f (didToAddress st)) (verificationResults st) (zkProofs st)
          (authorizedIssuers st) (owner st) (oracleSigner st) (totalDIDs st) (totalVerifications st).
Definition set_verificationResults
    (f : gmap Z VerificationResult.t -> gmap Z VerificationResult.t) (st : State) : State :=
  mkState (didDocuments st) (didToAddress st) (f (verificationResults st)) (zkProofs st)
          (authorizedIssuers st) (owner st) (oracleSigner st) (totalDIDs st) (totalVerifications st).
Definition set_zkProofs (f : gmap Z ZKProof.t -> gmap Z ZKProof.t) (st : State) : State :=
  mkState (didDocuments st) (didToAddress st) (verificationResults st) (f (zkProofs st))
          (authorizedIssuers st) (owner st) (oracleSigner st) (totalDIDs st) (totalVerifications st).
Definition set_authorizedIssuers (f : gmap Z bool -> gmap Z bool) (st : State) : State :=
  mkState (didDocuments st) (didToAddress st) (verificationResults st) (zkProofs st)
          (f (authorizedIssuers st)) (owner st) (oracleSigner st) (totalDIDs st) (totalVerifications st).
Definition set_owner (a : Z) (st : State) : State :=
  mkState (didDocuments st) (didToAddress st) (verificationResults st) (zkProofs st)
          (authorizedIssuers st) a (oracleSigner st) (totalDIDs st) (totalVerifications st).
Definition set_oracleSigner (a : Z) (st : State) : State :=
  mkState (didDocuments st) (didToAddress st) (verificationResults st) (zkProofs st)
          (authorizedIssuers st) (owner st) a (totalDIDs st) (totalVerifications st).
Definition set_totalDIDs (n : Z) (st : State) : State :=
  mkState (didDocuments st) (didToAddress st) (verificationResults st) (zkProofs st)
          (authorizedIssuers st) (owner st) (oracleSigner st) n (totalVerifications st).
Definition set_totalVerifications (n : Z) (st : State) : State :=
  mkState (didDocuments st) (didToAddress st) (verificationResults st) (zkProofs st)
          (authorizedIssuers st) (owner st) (oracleSigner st) (totalDIDs st) n.

(** ** Events *)

Inductive Event :=
| DIDRegistered (owner : Z) (did : string) (timestamp : Z)
| DIDUpdated (owner : Z) (did : string) (timestamp : Z)
| DIDDeactivated (owner : Z) (did : string) (timestamp : Z)
| VerificationRecorded (imageHash : Z) (subjectDid : string) (isReal : bool)
                       (confidence : Z) (timestamp : Z)
| ZKProofSubmitted (imageHash : Z) (proofHash : Z) (timestamp : Z)
| ZKProofVerified (imageHash : Z) (isValid : bool) (timestamp : Z)
| IssuerAuthorized (issuer : Z) (timestamp : Z)
| IssuerRevoked (issuer : Z) (timestamp : Z).

(** ** Calls: the environment and the outcome *)

Record Env := mkEnv {
  msg_sender : Z;
  block_timestamp : Z
}.

Inductive Result (A : Type) :=
| Ok (a : A) (st : State) (log : list Event)
| Revert (reason : string)
| Panic (code : Z).
Arguments Ok {A} a st log.
Arguments Revert {A} reason.
Arguments Panic {A} code.

Definition M (A : Type) : Type := State -> Result A.

Definition ret {A} (a : A) : M A := fun st => Ok a st [].

Definition bind {A B} (m : M A) (f : A -> M B) : M B :=
  fun st =>
    match m st with
    | Ok a st1 l1 =>
        match f a st1 with
        | Ok b st2 l2 => Ok b st2 (l1 ++ l2)
        | Revert r => Revert r
        | Panic c => Panic c
        end
    | Revert r => Revert r
    | Panic c => Panic c
    end.

Global Instance M_ret : MRet M := @ret.
Global Instance M_bind : MBind M := fun A B f m => bind m f.

Definition require (cond : bool) (reason : string) : M unit :=
  fun st => if cond then Ok tt st [] else Revert reason.
Definition read {A} (f : State -> A) : M A := fun st => Ok (f st) st [].
Definition write (f : State -> State) : M unit := fun st => Ok tt (f st) [].
Definition emit (e : Event) : M unit := fun st => Ok tt st [e].

(** [x++] on a [uint256] under Solidity 0.8: panics (code 0x11) instead of
    wrapping. *)
Definition checked_incr (x : Z) : M Z :=
  fun st => if x <? max_uint256 then Ok (x + 1) st [] else Panic 17.

Definition nonempty (s : string) : bool := 0 <? Z.of_nat (String.length s).

(** ** The contract *)

Section Contract.

Context `{EVM}.

(** *** Modifiers *)

Definition onlyOwner (env : Env) : M unit :=
  o ← read owner;
  require (msg_sender env =? o) "Only owner can call this function".

Definition onlyAuthorizedIssuer (env : Env) : M unit :=
  a ← read (fun st => authorizedIssuers_at st (msg_sender env));
  require a "Not an authorized issuer".

Definition didExists (_owner : Z) : M unit :=
  d ← read (fun st => didDocuments_at st _owner);
  require (DIDDocument.isActive d) "DID does not exist or is deactivated".

(** *** Constructor *)

Definition constructor (env : Env) (_oracleSigner : Z) : State :=
  mkState ∅ ∅ ∅ ∅ (<[msg_sender env := true]> ∅)
          (msg_sender env) _oracleSigner 0 0.

(** *** Admin *)

Definition setOracleSigner (env : Env) (_newSigner : Z) : M unit :=
  onlyOwner env;;
  require (negb (_newSigner =? 0)) "Invalid signer address";;
  write (set_oracleSigner _newSigner).

(** *** DID management *)

Definition registerDID (env : Env) (_did _publicKeyBase58 : string) : M unit :=
  d ← read (fun st => didDocuments_at st (msg_sender env));
  require (negb (DIDDocument.isActive d)) "DID already registered";;
  a ← read (fun st => didToAddress_at st _did);
  require (a =? 0) "DID already taken";;
  require (nonempty _did) "DID cannot be empty";;
  require (nonempty _publicKeyBase58) "Public key cannot be empty";;
  write (set_didDocuments
           (<[msg_sender env :=
                DIDDocument.mk (msg_sender env) _did _publicKeyBase58 true
                               (block_timestamp env) (block_timestamp env)]>));;
  write (set_didToAddress (<[_did := msg_sender env]>));;
  n ← read totalDIDs;
  n' ← checked_incr n;
  write (set_totalDIDs n');;
  emit (DIDRegistered (msg_sender env) _did (block_timestamp env)).

Definition updateDIDPublicKey (env : Env) (_newPublicKeyBase58 : string) : M unit :=
  didExists (msg_sender env);;
  require (nonempty _newPublicKeyBase58) "Public key cannot be empty";;
  write (fun st => set_didDocuments
           (<[msg_sender env :=
                DIDDocument.set_publicKeyBase58 _newPublicKeyBase58
                  (didDocuments_at st (msg_sender env))]>) st);;
  write (fun st => set_didDocuments
           (<[msg_sender env :=
                DIDDocument.set_updatedAt (block_timestamp env)
                  (didDocuments_at st (msg_sender env))]>) st);;
  d ← read (fun st => didDocuments_at st (msg_sender env));
  emit (DIDUpdated (msg_sender env) (DIDDocument.did d) (block_timestamp env)).

Definition deactivateDID (env : Env) : M unit :=
  didExists (msg_sender env);;
  did ← read (fun st => DIDDocument.did (didDocuments_at st (msg_sender env)));
  write (fun st => set_didDocuments
           (<[msg_sender env :=
                DIDDocument.set_isActive false
                  (didDocuments_at st (msg_sender env))]>) st);;
  write (fun st => set_didDocuments
           (<[msg_sender env :=
                DIDDocument.set_updatedAt (block_timestamp env)
                  (didDocuments_at st (msg_sender env))]>) st);;
  write (set_didToAddress (delete did));;
  emit (DIDDeactivated (msg_sender env) did (block_timestamp env)).

Definition resolveDID (_did : string) : M DIDDocument.t :=
  didOwner ← read (fun st => didToAddress_at st _did);
  require (negb (didOwner =? 0)) "DID not found";;
  d ← read (fun st => didDocuments_at st didOwner);
  require (DIDDocument.isActive d) "DID is deactivated";;
  mret d.

(** *** Signature recovery *)

(** [r], [s] and [v] as the assembly block reads them from the 65 bytes:
    the words at offsets 0 and 32, and the first byte of the word at
    offset 64. *)
Definition sig_r (_signature : list byte) : Z := be_decode (take 32 _signature).
Definition sig_s (_signature : list byte) : Z := be_decode (take 32 (drop 32 _signature)).
Definition sig_v (_signature : list byte) : Z :=
  match _signature !! 64%nat with
  | Some b => Z_of_byte b
  | None => 0
  end.

Definition normalize_v (v : Z) : Z := if v <? 27 then v + 27 else v.

Definition recoverSigner (_ethSignedHash : Z) (_signature : list byte) : M Z :=
  require (Z.of_nat (length _signature) =? 65) "Invalid signature length";;
  let r := sig_r _signature in
  let s := sig_s _signature in
  let v := normalize_v (sig_v _signature) in
  require ((v =? 27) || (v =? 28)) "Invalid signature v value";;
  mret (ecrecover _ethSignedHash v r s).

(** *** Verification management *)

(** [abi.encodePacked(_imageHash, _isReal, _confidence)]: 32 + 1 + 32 bytes. *)
Definition encodePacked_verdict (_imageHash : Z) (_isReal : bool) (_confidence : Z) : list byte :=
  be_bytes 32 _imageHash ++ [bool_byte _isReal] ++ be_bytes 32 _confidence.

(** The bytes of ["\x19Ethereum Signed Message:\n32"]. *)
Definition eth_prefix : list byte :=
  [x19] ++ String.list_byte_of_string "Ethereum Signed Message:" ++ [x0a]
        ++ String.list_byte_of_string "32".

Definition messageHash (_imageHash : Z) (_isReal : bool) (_confidence : Z) : Z :=
  keccak256 (encodePacked_verdict _imageHash _isReal _confidence).

Definition ethSignedHash (_imageHash : Z) (_isReal : bool) (_confidence : Z) : Z :=
  keccak256 (eth_prefix ++ be_bytes 32 (messageHash _imageHash _isReal _confidence)).

Definition recordVerification (env : Env) (_imageHash : Z) (_subjectDid : string)
    (_isReal : bool) (_confidence : Z) (_credentialHash : Z)
    (_signature : list byte) : M unit :=
  didExists (msg_sender env);;
  require (negb (_imageHash =? 0)) "Image hash cannot be empty";;
  require (_confidence <=? 10000) "Confidence must be <= 10000";;
  recoveredSigner ← recoverSigner (ethSignedHash _imageHash _isReal _confidence) _signature;
  signer ← read oracleSigner;
  require (recoveredSigner =? signer) "Invalid oracle signature";;
  issuer ← read (fun st => DIDDocument.did (didDocuments_at st (msg_sender env)));
  write (set_verificationResults
           (<[_imageHash :=
                VerificationResult.mk _imageHash _subjectDid issuer _isReal _confidence
                                      (block_timestamp env) _credentialHash]>));;
  n ← read totalVerifications;
  n' ← checked_incr n;
  write (set_totalVerifications n');;
  emit (VerificationRecorded _imageHash _subjectDid _isReal _confidence (block_timestamp env)).

Definition getVerification (_imageHash : Z) : M VerificationResult.t :=
  r ← read (fun st => verificationResults_at st _imageHash);
  require (0 <? VerificationResult.timestamp r) "Verification not found";;
  mret r.

Definition isImageVerified (_imageHash : Z) : M bool :=
  r ← read (fun st => verificationResults_at st _imageHash);
  mret (0 <? VerificationResult.timestamp r).

(** *** ZK proof management *)

Definition submitZKProof (env : Env) (_imageHash _proofHash _publicInputHash : Z) : M unit :=
  require (negb (_imageHash =? 0)) "Image hash cannot be empty";;
  require (negb (_proofHash =? 0)) "Proof hash cannot be empty";;
  write (set_zkProofs
           (<[_imageHash :=
                ZKProof.mk _proofHash _publicInputHash false (block_timestamp env)]>));;
  emit (ZKProofSubmitted _imageHash _proofHash (block_timestamp env)).

Definition verifyZKProof (_imageHash _expectedProofHash : Z) : M bool :=
  proof ← read (fun st => zkProofs_at st _imageHash);
  require (0 <? ZKProof.timestamp proof) "ZK Proof not found";;
  mret (ZKProof.proofHash proof =? _expectedProofHash).

(** *** Admin *)

Definition authorizeIssuer (env : Env) (_issuer : Z) : M unit :=
  onlyOwner env;;
  a ← read (fun st => authorizedIssuers_at st _issuer);
  require (negb a) "Already authorized";;
  write (set_authorizedIssuers (<[_issuer := true]>));;
  emit (IssuerAuthorized _issuer (block_timestamp env)).

Definition revokeIssuer (env : Env) (_issuer : Z) : M unit :=
  onlyOwner env;;
  a ← read (fun st => authorizedIssuers_at st _issuer);
  require a "Not authorized";;
  o ← read owner;
  require (negb (_issuer =? o)) "Cannot revoke owner";;
  write (set_authorizedIssuers (<[_issuer := false]>));;
  emit (IssuerRevoked _issuer (block_timestamp env)).

Definition transferOwnership (env : Env) (_newOwner : Z) : M unit :=
  onlyOwner env;;
  require (negb (_newOwner =? 0)) "Invalid address";;
  o ← read owner;
  write (set_authorizedIssuers (<[o := false]>));;
  write (set_owner _newOwner);;
  write (set_authorizedIssuers (<[_newOwner := true]>)).

(** *** Views *)

Definition getMyDID (env : Env) : M DIDDocument.t :=
  d ← read (fun st => didDocuments_at st (msg_sender env));
  require (DIDDocument.isActive d) "No active DID";;
  mret d.

Definition isAuthorizedIssuer (_address : Z) : M bool :=
  read (fun st => authorizedIssuers_at st _address).

Definition getStats : M (Z * Z) :=
  read (fun st => (totalDIDs st, totalVerifications st)).

Definition getOracleSigner : M Z := read oracleSigner.

End Contract.

(** ** Post-states

    The storage each operation leaves when it returns. *)

Section PostStates.

Context `{EVM}.

Definition registerDID_post (env : Env) (_did _publicKeyBase58 : string) (st : State) : State :=
  set_totalDIDs (totalDIDs st + 1)
    (set_didToAddress (<[_did := msg_sender env]>)
       (set_didDocuments
          (<[msg_sender env :=
               DIDDocument.mk (msg_sender env) _did _publicKeyBase58 true
                              (block_timestamp env) (block_timestamp env)]>) st)).

Definition updateDIDPublicKey_post (env : Env) (_pk : string) (st : State) : State :=
  set_didDocuments
    (<[msg_sender env :=
         DIDDocument.set_updatedAt (block_timestamp env)
           (DIDDocument.set_publicKeyBase58 _pk (didDocuments_at st (msg_sender env)))]>) st.

Definition deactivateDID_post (env : Env) (st : State) : State :=
  set_didToAddress (delete (DIDDocument.did (didDocuments_at st (msg_sender env))))
    (set_didDocuments
       (<[msg_sender env :=
            DIDDocument.set_updatedAt (block_timestamp env)
              (DIDDocument.set_isActive false (didDocuments_at st (msg_sender env)))]>) st).

(** The address [recoverSigner] asks [ecrecover] for. *)
Definition recovered (_ethSignedHash : Z) (_signature : list byte) : Z :=
  ecrecover _ethSignedHash (normalize_v (sig_v _signature))
            (sig_r _signature) (sig_s _signature).

Definition v_ok (_signature : list byte) : bool :=
  (normalize_v (sig_v _signature) =? 27) || (normalize_v (sig_v _signature) =? 28).

Definition recordVerification_post (env : Env) (_imageHash : Z) (_subjectDid : string)
    (_isReal : bool) (_confidence : Z) (_credentialHash : Z) (st : State) : State :=
  set_totalVerifications (totalVerifications st + 1)
    (set_verificationResults
       (<[_imageHash :=
            VerificationResult.mk _imageHash _subjectDid
              (DIDDocument.did (didDocuments_at st (msg_sender env)))
              _isReal _confidence (block_timestamp env) _credentialHash]>) st).

Definition submitZKProof_post (env : Env) (_imageHash _proofHash _publicInputHash : Z)
    (st : State) : State :=
  set_zkProofs
    (<[_imageHash := ZKProof.mk _proofHash _publicInputHash false (block_timestamp env)]>) st.

Definition transferOwnership_post (_newOwner : Z) (st : State) : State :=
  set_authorizedIssuers (<[_newOwner := true]>)
    (set_owner _newOwner (set_authorizedIssuers (<[owner st := false]>) st)).

End PostStates.

(** ** Transactions *)

(** The external functions of the contract, with their arguments. *)
Inductive Call :=
| CallSetOracleSigner (_newSigner : Z)
| CallRegisterDID (_did _publicKeyBase58 : string)
| CallUpdateDIDPublicKey (_newPublicKeyBase58 : string)
| CallDeactivateDID
| CallResolveDID (_did : string)
| CallRecordVerification (_imageHash : Z) (_subjectDid : string) (_isReal : bool)
                         (_confidence : Z) (_credentialHash : Z) (_signature : list byte)
| CallGetVerification (_imageHash : Z)
| CallIsImageVerified (_imageHash : Z)
| CallSubmitZKProof (_imageHash _proofHash _publicInputHash : Z)
| CallVerifyZKProof (_imageHash _expectedProofHash : Z)
| CallAuthorizeIssuer (_issuer : Z)
| CallRevokeIssuer (_issuer : Z)
| CallTransferOwnership (_newOwner : Z)
| CallGetMyDID
| CallIsAuthorizedIssuer (_address : Z)
| CallGetStats
| CallGetOracleSigner.

(** The functions that are not [view]. *)
Definition mutating (c : Call) : bool :=
  match c with
  | CallSetOracleSigner _ | CallRegisterDID _ _ | CallUpdateDIDPublicKey _
  | CallDeactivateDID | CallRecordVerification _ _ _ _ _ _ | CallSubmitZKProof _ _ _
  | CallAuthorizeIssuer _ | CallRevokeIssuer _ | CallTransferOwnership _ => true
  | _ => false
  end.

Inductive Outcome :=
| Success (log : list Event)
| Reverted (reason : string)
| Panicked (code : Z).

Definition succeeded (o : Outcome) : bool :=
  match o with Success _ => true | _ => false end.

Section Transactions.

Context `{EVM}.

Definition discard {A} (m : M A) : M unit := m ≫= (fun _ => mret tt).

Definition dispatch (env : Env) (c : Call) : M unit :=
  match c with
  | CallSetOracleSigner a => setOracleSigner env a
  | CallRegisterDID d k => registerDID env d k
  | CallUpdateDIDPublicKey k => updateDIDPublicKey env k
  | CallDeactivateDID => deactivateDID env
  | CallResolveDID d => discard (resolveDID d)
  | CallRecordVerification h subj b c cred sig =>
      recordVerification env h subj b c cred sig
  | CallGetVerification h => discard (getVerification h)
  | CallIsImageVerified h => discard (isImageVerified h)
  | CallSubmitZKProof h p q => submitZKProof env h p q
  | CallVerifyZKProof h e => discard (verifyZKProof h e)
  | CallAuthorizeIssuer a => authorizeIssuer env a
  | CallRevokeIssuer a => revokeIssuer env a
  | CallTransferOwnership a => transferOwnership env a
  | CallGetMyDID => discard (getMyDID env)
  | CallIsAuthorizedIssuer a => discard (isAuthorizedIssuer a)
  | CallGetStats => discard getStats
  | CallGetOracleSigner => discard getOracleSigner
  end.

(** One transaction: the writes of a call that reverts or panics are
    discarded by the EVM, and the storage is the one before the call. *)
Definition transact (st : State) (env : Env) (c : Call) : State * Outcome :=
  match dispatch env c st with
  | Ok _ st' log => (st', Success log)
  | Revert reason => (st, Reverted reason)
  | Panic code => (st, Panicked code)
  end.

(** The storages the contract can be in: deployed by an account, then any
    transactions.  The sender of a transaction is an account, never the
    zero address. *)
Inductive reachable : State -> Prop :=
| reachable_deploy env _oracleSigner :
    msg_sender env <> 0 -> reachable (constructor env _oracleSigner)
| reachable_transact st env c :
    reachable st -> msg_sender env <> 0 -> reachable (fst (transact st env c)).

(** Cryptographic assumptions, stated at the inputs they are used at. *)

(** [keccak256] does not collide on [x] and [y]. *)
Definition collision_free_at (x y : list byte) : Prop :=
  keccak256 x = keccak256 y -> x = y.

(** The signature does not recover to the same address over two different
    digests. *)
Definition binds_digest (_signature : list byte) (d d' : Z) : Prop :=
  d <> d' -> recovered d' _signature <> recovered d _signature.

End Transactions.

(** What a transaction adds to [totalDIDs] and to [totalVerifications]. *)
Definition registrations (c : Call) (o : Outcome) : Z :=
  match c with
  | CallRegisterDID _ _ => if succeeded o then 1 else 0
  | _ => 0
  end.

Definition records (c : Call) (o : Outcome) : Z :=
  match c with
  | CallRecordVerification _ _ _ _ _ _ => if succeeded o then 1 else 0
  | _ => 0
  end.

(** ** Invariants of the storage *)

(** The administrator is an authorized issuer. *)
Definition owner_authorized (st : State) : Prop :=
  authorizedIssuers_at st (owner st) = true.

(** The reverse index points at the holder of every active document. *)
Definition index_consistent (st : State) : Prop :=
  forall a, a <> 0 ->
    DIDDocument.isActive (didDocuments_at st a) = true ->
    didToAddress_at st (DIDDocument.did (didDocuments_at st a)) = a.

(** The DID of an active document is not the empty string. *)
Definition active_did_nonempty (st : State) : Prop :=
  forall a, DIDDocument.isActive (didDocuments_at st a) = true ->
    nonempty (DIDDocument.did (didDocuments_at st a)) = true.

(** Two storages that differ at most in the authorized-issuer set. *)
Definition same_but_issuers (st1 st2 : State) : Prop :=
  st2 = set_authorizedIssuers (fun _ => authorizedIssuers st2) st1.

(** Every non-zero entry of the reverse index is the holder of an active
    document with that DID. *)
Definition index_sound (st : State) : Prop :=
  forall d, didToAddress_at st d <> 0 ->
    DIDDocument.isActive (didDocuments_at st (didToAddress_at st d)) = true /\
    DIDDocument.did (didDocuments_at st (didToAddress_at st d)) = d.

(** The [owner] field of an active document is the account it is stored
    under. *)
Definition owner_field (st : State) : Prop :=
  forall a, DIDDocument.isActive (didDocuments_at st a) = true ->
    DIDDocument.owner (didDocuments_at st a) = a.

(** Every stored verification record is keyed by its own non-zero hash,
    has a confidence of at most 10000 and names an issuer. *)
Definition records_wellformed (st : State) : Prop :=
  forall h r, verificationResults st !! h = Some r ->
    VerificationResult.imageHash r = h /\ h <> 0 /\
    VerificationResult.confidence r <= 10000 /\
    VerificationResult.issuerDid r <> "".

(** Every stored commitment is pending, under a non-zero hash and with a
    non-zero proof hash. *)
Definition proofs_pending (st : State) : Prop :=
  forall h p, zkProofs st !! h = Some p ->
    ZKProof.isValid p = false /\ h <> 0 /\ ZKProof.proofHash p <> 0.

(** ** Runs of transactions *)

Definition is_registerDID (c : Call) : bool :=
  match c with CallRegisterDID _ _ => true | _ => false end.

Definition is_recordVerification (c : Call) : bool :=
  match c with CallRecordVerification _ _ _ _ _ _ => true | _ => false end.

Section Runs.

Context `{EVM}.

(** The storage after the transactions of [txs], in order. *)
Fixpoint run (st : State) (txs : list (Env * Call)) : State :=
  match txs with
  | [] => st
  | (env, c) :: rest => run (fst (transact st env c)) rest
  end.

(** How many transactions of [txs] are calls of [op] that return. *)
Fixpoint returned (op : Call -> bool) (st : State) (txs : list (Env * Call)) : Z :=
  match txs with
  | [] => 0
  | (env, c) :: rest =>
      (if op c && succeeded (snd (transact st env c)) then 1 else 0)
      + returned op (fst (transact st env c)) rest
  end.

(** The events a transaction leaves in the log. *)
Definition events (o : Outcome) : list Event :=
  match o with Success log => log | _ => [] end.

End Runs.

(** ** The front end: DID generation and address display

    [registerDID] of [App.jsx] and [formatAddress] of [WalletConnect.jsx].
    A JavaScript string is modelled by its sequence of characters; those
    handled here are ASCII. *)

Module Frontend.

(** The digit [n.toString(16)] writes for [n < 16]. *)
Definition hex_digit (n : N) : Ascii.ascii :=
  match n with
  | 0%N => "0" | 1%N => "1" | 2%N => "2" | 3%N => "3"
  | 4%N => "4" | 5%N => "5" | 6%N => "6" | 7%N => "7"
  | 8%N => "8" | 9%N => "9" | 10%N => "a" | 11%N => "b"
  | 12%N => "c" | 13%N => "d" | 14%N => "e" | _ => "f"
  end%char.

(** [b.toString(16)] for an element of a [Uint8Array]: no leading zero. *)
Definition toString16 (b : byte) : string :=
  let n := Byte.to_N b in
  if (n <? 16)%N then String (hex_digit n) EmptyString
  else String (hex_digit (n / 16)) (String (hex_digit (n mod 16)) EmptyString).

(** [s.padStart(targetLength, pad)] for a one-character [pad]. *)
Fixpoint pad_chars (k : nat) (pad : Ascii.ascii) (s : string) : string :=
  match k with
  | O => s
  | S k' => String pad (pad_chars k' pad s)
  end.

Definition padStart (targetLength : nat) (pad : Ascii.ascii) (s : string) : string :=
  pad_chars (targetLength - String.length s) pad s.

(** [Array.from(bytes).map(b => b.toString(16).padStart(2, '0')).join('')] *)
Fixpoint randomId (bytes : list byte) : string :=
  match bytes with
  | [] => EmptyString
  | b :: rest => String.append (padStart 2 "0" (toString16 b)) (randomId rest)
  end.

Definition new_did (bytes : list byte) : string :=
  String.append "did:deepfake:" (randomId bytes).

Definition new_publicKey (bytes : list byte) : string :=
  String.append "pk_" (String.substring 0 32 (randomId bytes)).

(** [formatAddress]: [None] stands for [null] and [undefined];
    [substring(0, 6)] keeps at most six characters, and
    [substring(length - 4)] starts at 0 when the string is shorter than
    four. *)
Definition formatAddress (address : option string) : string :=
  match address with
  | None => EmptyString
  | Some EmptyString => EmptyString
  | Some a =>
      String.append (String.substring 0 6 a)
        (String.append "..."
           (String.substring (String.length a - 4) (String.length a) a))
  end.

(** Reading two hexadecimal characters back (used to state that
    [randomId] loses nothing). *)
Definition unhex_digit (c : Ascii.ascii) : N :=
  let n := Ascii.N_of_ascii c in
  if (n <? 58)%N then (n - 48)%N else (n - 87)%N.

Fixpoint unhex (s : string) : list byte :=
  match s with
  | String hi (String lo rest) =>
      match Byte.of_N (unhex_digit hi * 16 + unhex_digit lo) with
      | Some b => b :: unhex rest
      | None => []
      end
  | _ => []
  end.

End Frontend.

(** ** An instance of the EVM interface to evaluate on

    A keyless stand-in for Keccak-256 and secp256k1 recovery: the digest
    is a polynomial hash of the bytes, and a signature [(r, s)] with
    [r, s <> 0] recovers over digest [h] to [(h + s) mod 2^160]; so the
    account [a] signs [h] with [s = (a - h) mod 2^160].  As for the
    precompile, a signature with [r = 0] or [s = 0] recovers to the zero
    address. *)

Definition toy_keccak256 (bs : list byte) : Z :=
  fold_left (fun acc b => (acc * 257 + Z_of_byte b + 1) mod 2 ^ 256) bs 7.

Definition toy_ecrecover (h v r s : Z) : Z :=
  if (r =? 0) || (s =? 0) then 0 else (h + s) mod 2 ^ 160.

(** ** Equations of the operations

    Each operation, run on a storage, is a cascade of its [require]s
    followed by its writes. *)

Ltac run_monad :=
  cbv [mbind M_bind bind mret M_ret ret require read write emit checked_incr
       onlyOwner didExists onlyAuthorizedIssuer].

Ltac split_ifs :=
  repeat (match goal with
          | |- context [if ?c then _ else _] => destruct c eqn:?
          end; cbn [negb orb andb app] in *; try discriminate).

Ltac split_ifs_hyp :=
  repeat (match goal with
          | Hg : context [if ?c then _ else _] |- _ => destruct c eqn:?
          end; cbn [negb orb andb app] in *; try discriminate).

Section Equations.

Context `{EVM}.

Lemma registerDID_eq env _did _pk st :
  registerDID env _did _pk st =
  if DIDDocument.isActive (didDocuments_at st (msg_sender env))
  then Revert "DID already registered"
  else if negb (didToAddress_at st _did =? 0) then Revert "DID already taken"
  else if negb (nonempty _did) then Revert "DID cannot be empty"
  else if negb (nonempty _pk) then Revert "Public key cannot be empty"
  else if totalDIDs st <? max_uint256
  then Ok tt (registerDID_post env _did _pk st)
          [DIDRegistered (msg_sender env) _did (block_timestamp env)]
  else Panic 17.
Proof.
  unfold registerDID, registerDID_post. run_monad.
  cbn [totalDIDs set_didToAddress set_didDocuments].
  split_ifs; reflexivity.
Qed.

Lemma didDocuments_at_insert st a d :
  didDocuments_at (set_didDocuments (<[a := d]>) st) a = d.
Proof. unfold didDocuments_at. cbn [didDocuments set_didDocuments]. by rewrite lookup_insert_eq. Qed.

Lemma set_didDocuments_twice st a d1 d2 :
  set_didDocuments (<[a := d2]>) (set_didDocuments (<[a := d1]>) st)
  = set_didDocuments (<[a := d2]>) st.
Proof. unfold set_didDocuments. cbn. by rewrite insert_insert_eq. Qed.

Lemma updateDIDPublicKey_eq env _pk st :
  updateDIDPublicKey env _pk st =
  if DIDDocument.isActive (didDocuments_at st (msg_sender env))
  then if nonempty _pk
       then Ok tt (updateDIDPublicKey_post env _pk st)
               [DIDUpdated (msg_sender env)
                  (DIDDocument.did (didDocuments_at st (msg_sender env)))
                  (block_timestamp env)]
       else Revert "Public key cannot be empty"
  else Revert "DID does not exist or is deactivated".
Proof.
  unfold updateDIDPublicKey, updateDIDPublicKey_post. run_monad.
  split_ifs; try reflexivity.
  rewrite !didDocuments_at_insert, set_didDocuments_twice. reflexivity.
Qed.

Lemma deactivateDID_eq env st :
  deactivateDID env st =
  if DIDDocument.isActive (didDocuments_at st (msg_sender env))
  then Ok tt (deactivateDID_post env st)
          [DIDDeactivated (msg_sender env)
             (DIDDocument.did (didDocuments_at st (msg_sender env)))
             (block_timestamp env)]
  else Revert "DID does not exist or is deactivated".
Proof.
  unfold deactivateDID, deactivateDID_post. run_monad.
  split_ifs; try reflexivity.
  rewrite !didDocuments_at_insert, set_didDocuments_twice. reflexivity.
Qed.

Lemma resolveDID_eq _did st :
  resolveDID _did st =
  if didToAddress_at st _did =? 0 then Revert "DID not found"
  else if DIDDocument.isActive (didDocuments_at st (didToAddress_at st _did))
  then Ok (didDocuments_at st (didToAddress_at st _did)) st []
  else Revert "DID is deactivated".
Proof. unfold resolveDID. run_monad. split_ifs; reflexivity. Qed.

Lemma recoverSigner_eq h sig st :
  recoverSigner h sig st =
  if Z.of_nat (length sig) =? 65
  then if v_ok sig then Ok (recovered h sig) st []
       else Revert "Invalid signature v value"
  else Revert "Invalid signature length".
Proof.
  unfold recoverSigner, recovered, v_ok. run_monad.
  destruct (Z.of_nat (length sig) =? 65); [|reflexivity].
  destruct (_ || _); reflexivity.
Qed.

Lemma recordVerification_eq env h subj b c cred sig st :
  recordVerification env h subj b c cred sig st =
  if DIDDocument.isActive (didDocuments_at st (msg_sender env))
  then if h =? 0 then Revert "Image hash cannot be empty"
  else if c <=? 10000
  then if Z.of_nat (length sig) =? 65
  then if v_ok sig
  then if recovered (ethSignedHash h b c) sig =? oracleSigner st
  then if totalVerifications st <? max_uint256
       then Ok tt (recordVerification_post env h subj b c cred st)
               [VerificationRecorded h subj b c (block_timestamp env)]
       else Panic 17
  else Revert "Invalid oracle signature"
  else Revert "Invalid signature v value"
  else Revert "Invalid signature length"
  else Revert "Confidence must be <= 10000"
  else Revert "DID does not exist or is deactivated".
Proof.
  unfold recordVerification, recordVerification_post.
  cbv [mbind M_bind bind mret M_ret ret require read write emit checked_incr didExists].
  destruct (DIDDocument.isActive _); [|reflexivity].
  destruct (h =? 0); [reflexivity|]. cbn [negb].
  destruct (c <=? 10000); [|reflexivity].
  rewrite recoverSigner_eq.
  destruct (Z.of_nat (length sig) =? 65); [|reflexivity].
  destruct (v_ok sig); [|reflexivity].
  destruct (recovered _ _ =? oracleSigner st); [|reflexivity].
  cbn [totalVerifications set_verificationResults].
  destruct (totalVerifications st <? max_uint256); reflexivity.
Qed.

Lemma getVerification_eq h st :
  getVerification h st =
  if 0 <? VerificationResult.timestamp (verificationResults_at st h)
  then Ok (verificationResults_at st h) st []
  else Revert "Verification not found".
Proof. unfold getVerification. run_monad. split_ifs; reflexivity. Qed.

Lemma isImageVerified_eq h st :
  isImageVerified h st =
  Ok (0 <? VerificationResult.timestamp (verificationResults_at st h)) st [].
Proof. reflexivity. Qed.

Lemma submitZKProof_eq env h p q st :
  submitZKProof env h p q st =
  if h =? 0 then Revert "Image hash cannot be empty"
  else if p =? 0 then Revert "Proof hash cannot be empty"
  else Ok tt (submitZKProof_post env h p q st)
          [ZKProofSubmitted h p (block_timestamp env)].
Proof. unfold submitZKProof, submitZKProof_post. run_monad. split_ifs; reflexivity. Qed.

Lemma verifyZKProof_eq h e st :
  verifyZKProof h e st =
  if 0 <? ZKProof.timestamp (zkProofs_at st h)
  then Ok (ZKProof.proofHash (zkProofs_at st h) =? e) st []
  else Revert "ZK Proof not found".
Proof. unfold verifyZKProof. run_monad. split_ifs; reflexivity. Qed.

Lemma setOracleSigner_eq env a st :
  setOracleSigner env a st =
  if msg_sender env =? owner st
  then if a =? 0 then Revert "Invalid signer address"
       else Ok tt (set_oracleSigner a st) []
  else Revert "Only owner can call this function".
Proof. unfold setOracleSigner. run_monad. split_ifs; reflexivity. Qed.

Lemma authorizeIssuer_eq env a st :
  authorizeIssuer env a st =
  if msg_sender env =? owner st
  then if authorizedIssuers_at st a then Revert "Already authorized"
       else Ok tt (set_authorizedIssuers (<[a := true]>) st)
               [IssuerAuthorized a (block_timestamp env)]
  else Revert "Only owner can call this function".
Proof. unfold authorizeIssuer. run_monad. split_ifs; reflexivity. Qed.

Lemma revokeIssuer_eq env a st :
  revokeIssuer env a st =
  if msg_sender env =? owner st
  then if authorizedIssuers_at st a
       then if a =? owner st then Revert "Cannot revoke owner"
            else Ok tt (set_authorizedIssuers (<[a := false]>) st)
                    [IssuerRevoked a (block_timestamp env)]
       else Revert "Not authorized"
  else Revert "Only owner can call this function".
Proof. unfold revokeIssuer. run_monad. split_ifs; reflexivity. Qed.

Lemma transferOwnership_eq env a st :
  transferOwnership env a st =
  if msg_sender env =? owner st
  then if a =? 0 then Revert "Invalid address"
       else Ok tt (transferOwnership_post a st) []
  else Revert "Only owner can call this function".
Proof. unfold transferOwnership, transferOwnership_post. run_monad. split_ifs; reflexivity. Qed.

Lemma getMyDID_eq env st :
  getMyDID env st =
  if DIDDocument.isActive (didDocuments_at st (msg_sender env))
  then Ok (didDocuments_at st (msg_sender env)) st []
  else Revert "No active DID".
Proof. unfold getMyDID. run_monad. split_ifs; reflexivity. Qed.

End Equations.

(** ** Byte strings: decoding inverts encoding *)

Lemma Z_of_byte_of_Z z : Z_of_byte (byte_of_Z z) = z mod 256.
Proof.
  unfold Z_of_byte, byte_of_Z.
  assert (Hr : 0 <= z mod 256 < 256) by (apply Z.mod_pos_bound; lia).
  destruct (Byte.of_N (Z.to_N (z mod 256))) as [b|] eqn:E.
  - apply Byte.to_of_N in E. rewrite E. lia.
  - apply Byte.of_N_None_iff in E. lia.
Qed.

Lemma be_decode_snoc l b : be_decode (l ++ [b]) = be_decode l * 256 + Z_of_byte b.
Proof. unfold be_decode. rewrite fold_left_app. reflexivity. Qed.

Lemma length_be_bytes n z : length (be_bytes n z) = n.
Proof.
  revert z. induction n as [|n IH]; intros z; cbn [be_bytes]; [reflexivity|].
  rewrite length_app, IH. cbn. lia.
Qed.

Lemma be_decode_be_bytes n z : be_decode (be_bytes n z) = z mod 256 ^ Z.of_nat n.
Proof.
  revert z. induction n as [|n IH]; intros z.
  - cbn. symmetry. apply Z.mod_1_r.
  - cbn [be_bytes]. rewrite be_decode_snoc, IH, Z_of_byte_of_Z.
    rewrite Nat2Z.inj_succ, Z.pow_succ_r by lia.
    rewrite Z.mod_mod by lia.
    rewrite (Z.rem_mul_r z 256 (256 ^ Z.of_nat n)) by lia. ring.
Qed.

Lemma be_bytes_inj n x y :
  0 <= x < 256 ^ Z.of_nat n -> 0 <= y < 256 ^ Z.of_nat n ->
  be_bytes n x = be_bytes n y -> x = y.
Proof.
  intros Hx Hy E. apply (f_equal be_decode) in E.
  rewrite !be_decode_be_bytes in E.
  rewrite !Z.mod_small in E by assumption. exact E.
Qed.

Lemma bool_byte_inj b1 b2 : bool_byte b1 = bool_byte b2 -> b1 = b2.
Proof. destruct b1, b2; cbn; congruence. Qed.

Lemma word_bound : 256 ^ Z.of_nat 32 = 2 ^ 256.
Proof. reflexivity. Qed.

(** [abi.encodePacked] of the verdict determines the verdict. *)
Lemma encodePacked_verdict_inj h b c h' b' c' :
  0 <= h < 2 ^ 256 -> 0 <= c < 2 ^ 256 ->
  0 <= h' < 2 ^ 256 -> 0 <= c' < 2 ^ 256 ->
  encodePacked_verdict h b c = encodePacked_verdict h' b' c' ->
  h = h' /\ b = b' /\ c = c'.
Proof.
  intros Hh Hc Hh' Hc' E. unfold encodePacked_verdict in E.
  apply app_inj_1 in E as [E1 E2]; [|by rewrite !length_be_bytes].
  apply app_inj_1 in E2 as [Eb Ec]; [|reflexivity].
  injection Eb as Eb.
  split; [|split].
  - apply (be_bytes_inj 32); rewrite ?word_bound; assumption.
  - by apply bool_byte_inj.
  - apply (be_bytes_inj 32); rewrite ?word_bound; assumption.
Qed.

Lemma toy_keccak256_range bs : 0 <= toy_keccak256 bs < 2 ^ 256.
Proof.
  unfold toy_keccak256.
  assert (G : forall acc, 0 <= acc < 2 ^ 256 ->
            0 <= fold_left (fun acc b => (acc * 257 + Z_of_byte b + 1) mod 2 ^ 256) bs acc
              < 2 ^ 256).
  { induction bs as [|b bs IH]; intros acc Hacc; cbn [fold_left]; [exact Hacc|].
    apply IH. apply Z.mod_pos_bound. lia. }
  apply G. lia.
Qed.

Definition toy_evm : EVM :=
  {| keccak256 := toy_keccak256;
     ecrecover := toy_ecrecover;
     keccak256_range := toy_keccak256_range |}.

(** ** Reads after writes *)

Lemma didDocuments_at_insert_ne st a a' d :
  a <> a' -> didDocuments_at (set_didDocuments (<[a := d]>) st) a' = didDocuments_at st a'.
Proof.
  intros Hne. unfold didDocuments_at. cbn [didDocuments set_didDocuments].
  by rewrite lookup_insert_ne.
Qed.

Lemma didToAddress_at_insert st d a :
  didToAddress_at (set_didToAddress (<[d := a]>) st) d = a.
Proof. unfold didToAddress_at. cbn [didToAddress set_didToAddress]. by rewrite lookup_insert_eq. Qed.

Lemma didToAddress_at_insert_ne st d d' a :
  d <> d' -> didToAddress_at (set_didToAddress (<[d := a]>) st) d' = didToAddress_at st d'.
Proof.
  intros Hne. unfold didToAddress_at. cbn [didToAddress set_didToAddress].
  by rewrite lookup_insert_ne.
Qed.

Lemma didToAddress_at_delete st d :
  didToAddress_at (set_didToAddress (delete d) st) d = 0.
Proof. unfold didToAddress_at. cbn [didToAddress set_didToAddress]. by rewrite lookup_delete_eq. Qed.

Lemma didToAddress_at_delete_ne st d d' :
  d <> d' -> didToAddress_at (set_didToAddress (delete d) st) d' = didToAddress_at st d'.
Proof.
  intros Hne. unfold didToAddress_at. cbn [didToAddress set_didToAddress].
  by rewrite lookup_delete_ne.
Qed.

Lemma authorizedIssuers_at_insert st a b :
  authorizedIssuers_at (set_authorizedIssuers (<[a := b]>) st) a = b.
Proof.
  unfold authorizedIssuers_at. cbn [authorizedIssuers set_authorizedIssuers].
  by rewrite lookup_insert_eq.
Qed.

Lemma authorizedIssuers_at_insert_ne st a a' b :
  a <> a' ->
  authorizedIssuers_at (set_authorizedIssuers (<[a := b]>) st) a' = authorizedIssuers_at st a'.
Proof.
  intros Hne. unfold authorizedIssuers_at. cbn [authorizedIssuers set_authorizedIssuers].
  by rewrite lookup_insert_ne.
Qed.

Lemma verificationResults_at_insert st h r :
  verificationResults_at (set_verificationResults (<[h := r]>) st) h = r.
Proof.
  unfold verificationResults_at. cbn [verificationResults set_verificationResults].
  by rewrite lookup_insert_eq.
Qed.

Lemma zkProofs_at_insert st h p :
  zkProofs_at (set_zkProofs (<[h := p]>) st) h = p.
Proof. unfold zkProofs_at. cbn [zkProofs set_zkProofs]. by rewrite lookup_insert_eq. Qed.

Lemma nonempty_iff s : nonempty s = true <-> s <> "".
Proof.
  unfold nonempty. destruct s; cbn [String.length]; split; intros Hs; done.
Qed.

(** ** Transactions, case by case *)

Section TransactFacts.

Context `{EVM}.

Lemma discard_eq {A} (m : M A) st :
  discard m st =
  match m st with
  | Ok _ st' log => Ok tt st' (log ++ [])
  | Revert r => Revert r
  | Panic c => Panic c
  end.
Proof. reflexivity. Qed.

(** A [view] function leaves the storage as it is. *)
Lemma transact_view st env c : mutating c = false -> fst (transact st env c) = st.
Proof.
  intros Hc. unfold transact.
  destruct c; try discriminate Hc; cbn [dispatch]; rewrite discard_eq.
  - rewrite resolveDID_eq. split_ifs; reflexivity.
  - rewrite getVerification_eq. split_ifs; reflexivity.
  - reflexivity.
  - rewrite verifyZKProof_eq. split_ifs; reflexivity.
  - rewrite getMyDID_eq. split_ifs; reflexivity.
  - reflexivity.
  - reflexivity.
  - reflexivity.
Qed.

(** A call that does not return leaves the storage as it is. *)
Lemma transact_failed st env c :
  succeeded (snd (transact st env c)) = false -> fst (transact st env c) = st.
Proof.
  unfold transact. destruct (dispatch env c st); cbn; [discriminate|reflexivity..].
Qed.

End TransactFacts.

(** Every call, rewritten to its cascade of checks, one goal per branch. *)
Ltac call_cases c :=
  unfold transact; destruct c; cbn [dispatch]; rewrite ?discard_eq;
  rewrite ?setOracleSigner_eq, ?registerDID_eq, ?updateDIDPublicKey_eq,
    ?deactivateDID_eq, ?resolveDID_eq, ?recordVerification_eq, ?getVerification_eq,
    ?isImageVerified_eq, ?submitZKProof_eq, ?verifyZKProof_eq, ?authorizeIssuer_eq,
    ?revokeIssuer_eq, ?transferOwnership_eq, ?getMyDID_eq;
  try unfold isAuthorizedIssuer; try unfold getStats; try unfold getOracleSigner;
  try unfold read;
  split_ifs; cbn [fst snd].

(** ** The invariants hold in every reachable storage *)

Section Invariants.

Context `{EVM}.

Ltac mutating_cases c Hmut :=
  destruct c; try discriminate Hmut; unfold transact; cbn [dispatch];
  rewrite ?setOracleSigner_eq, ?registerDID_eq, ?updateDIDPublicKey_eq, ?deactivateDID_eq,
    ?recordVerification_eq, ?submitZKProof_eq, ?authorizeIssuer_eq, ?revokeIssuer_eq,
    ?transferOwnership_eq;
  split_ifs; cbn [fst snd]; try assumption.

Lemma constructor_owner_authorized env _oracleSigner :
  owner_authorized (constructor env _oracleSigner).
Proof.
  unfold owner_authorized, constructor, authorizedIssuers_at. cbn [authorizedIssuers owner].
  by rewrite lookup_insert_eq.
Qed.

Lemma transact_owner_authorized st env c :
  owner_authorized st -> owner_authorized (fst (transact st env c)).
Proof.
  intros Hinv. destruct (mutating c) eqn:Hmut; [|by rewrite transact_view].
  unfold owner_authorized in *.
  mutating_cases c Hmut.
  - (* authorizeIssuer *)
    cbn [owner set_authorizedIssuers].
    destruct (decide (_issuer = owner st)) as [->|Hne].
    + apply authorizedIssuers_at_insert.
    + by rewrite authorizedIssuers_at_insert_ne.
  - (* revokeIssuer *)
    cbn [owner set_authorizedIssuers].
    rewrite authorizedIssuers_at_insert_ne; [assumption|].
    intros ->. by rewrite Z.eqb_refl in *.
  - (* transferOwnership *)
    unfold transferOwnership_post. cbn [owner set_authorizedIssuers set_owner].
    apply authorizedIssuers_at_insert.
Qed.

Lemma reachable_owner_authorized st : reachable st -> owner_authorized st.
Proof.
  induction 1 as [env sg Hs|st env c Hr IH Hs].
  - apply constructor_owner_authorized.
  - by apply transact_owner_authorized.
Qed.

Lemma constructor_index_consistent env _oracleSigner :
  index_consistent (constructor env _oracleSigner).
Proof. intros a _ Ha. unfold didDocuments_at, constructor in Ha. cbn in Ha. discriminate. Qed.

Lemma constructor_active_did_nonempty env _oracleSigner :
  active_did_nonempty (constructor env _oracleSigner).
Proof. intros a Ha. unfold didDocuments_at, constructor in Ha. cbn in Ha. discriminate. Qed.

Lemma transact_index_consistent st env c :
  msg_sender env <> 0 ->
  index_consistent st -> index_consistent (fst (transact st env c)).
Proof.
  intros Hs Hinv. destruct (mutating c) eqn:Hmut; [|by rewrite transact_view].
  mutating_cases c Hmut.
  - (* registerDID *)
    intros a Ha Hact. unfold registerDID_post in *.
    change (didDocuments_at (set_totalDIDs ?n (set_didToAddress ?f ?s)) ?x)
      with (didDocuments_at s x) in *.
    change (didToAddress_at (set_totalDIDs ?n ?s) ?x) with (didToAddress_at s x).
    destruct (decide (msg_sender env = a)) as [<-|Hne].
    + rewrite didDocuments_at_insert. cbn [DIDDocument.did].
      apply didToAddress_at_insert.
    + rewrite didDocuments_at_insert_ne in * by assumption.
      specialize (Hinv a Ha Hact).
      rewrite didToAddress_at_insert_ne; [exact Hinv|].
      intros ->.
      change (didToAddress_at (set_didDocuments ?f ?s) ?x) with (didToAddress_at s x) in Hinv.
      match goal with
      | Hg : negb (didToAddress_at _ _ =? 0) = false |- _ =>
          apply negb_false_iff, Z.eqb_eq in Hg; congruence
      end.
  - (* updateDIDPublicKey *)
    intros a Ha Hact. unfold updateDIDPublicKey_post in *.
    change (didToAddress_at (set_didDocuments ?f ?s) ?x) with (didToAddress_at s x).
    destruct (decide (msg_sender env = a)) as [<-|Hne].
    + rewrite didDocuments_at_insert. cbn [DIDDocument.did DIDDocument.set_updatedAt
        DIDDocument.set_publicKeyBase58]. by apply Hinv.
    + rewrite didDocuments_at_insert_ne in * by assumption. by apply Hinv.
  - (* deactivateDID *)
    intros a Ha Hact. unfold deactivateDID_post in *.
    change (didDocuments_at (set_didToAddress ?f ?s) ?x) with (didDocuments_at s x) in *.
    destruct (decide (msg_sender env = a)) as [<-|Hne].
    + rewrite didDocuments_at_insert in Hact. cbn in Hact. discriminate.
    + rewrite didDocuments_at_insert_ne in * by assumption.
      rewrite didToAddress_at_delete_ne.
      * change (didToAddress_at (set_didDocuments ?f ?s) ?x) with (didToAddress_at s x).
        by apply Hinv.
      * intros E. pose proof (Hinv a Ha Hact) as H1.
        match goal with
        | Hg : DIDDocument.isActive (didDocuments_at st (msg_sender env)) = true |- _ =>
            pose proof (Hinv (msg_sender env) Hs Hg) as H2
        end.
        rewrite E in H2. congruence.
Qed.

Lemma transact_active_did_nonempty st env c :
  active_did_nonempty st -> active_did_nonempty (fst (transact st env c)).
Proof.
  intros Hinv. destruct (mutating c) eqn:Hmut; [|by rewrite transact_view].
  mutating_cases c Hmut.
  - (* registerDID *)
    intros a Hact. unfold registerDID_post in *.
    change (didDocuments_at (set_totalDIDs ?n (set_didToAddress ?f ?s)) ?x)
      with (didDocuments_at s x) in *.
    destruct (decide (msg_sender env = a)) as [<-|Hne].
    + rewrite didDocuments_at_insert. cbn [DIDDocument.did].
      by destruct (nonempty _did).
    + rewrite didDocuments_at_insert_ne in * by assumption. by apply Hinv.
  - (* updateDIDPublicKey *)
    intros a Hact. unfold updateDIDPublicKey_post in *.
    destruct (decide (msg_sender env = a)) as [<-|Hne].
    + rewrite didDocuments_at_insert. cbn [DIDDocument.did DIDDocument.set_updatedAt
        DIDDocument.set_publicKeyBase58]. by apply Hinv.
    + rewrite didDocuments_at_insert_ne in * by assumption. by apply Hinv.
  - (* deactivateDID *)
    intros a Hact. unfold deactivateDID_post in *.
    change (didDocuments_at (set_didToAddress ?f ?s) ?x) with (didDocuments_at s x) in *.
    destruct (decide (msg_sender env = a)) as [<-|Hne].
    + rewrite didDocuments_at_insert in Hact. cbn in Hact. discriminate.
    + rewrite didDocuments_at_insert_ne in * by assumption. by apply Hinv.
Qed.

Lemma reachable_index_consistent st : reachable st -> index_consistent st.
Proof.
  induction 1 as [env sg Hs|st env c Hr IH Hs].
  - apply constructor_index_consistent.
  - by apply transact_index_consistent.
Qed.

Lemma reachable_active_did_nonempty st : reachable st -> active_did_nonempty st.
Proof.
  induction 1 as [env sg Hs|st env c Hr IH Hs].
  - apply constructor_active_did_nonempty.
  - by apply transact_active_did_nonempty.
Qed.

End Invariants.

(** ** A scenario to evaluate on

    A deployment by [deployer] with oracle signer [oracle1], in which
    [alice] registers [did:x:1]. *)

Definition deployer : Z := 1.
Definition alice : Z := 2.
Definition bob : Z := 3.
Definition oracle1 : Z := 10.
Definition oracle2 : Z := 11.

Definition toy_sign (signer digest : Z) : list byte :=
  be_bytes 32 1 ++ be_bytes 32 ((signer - digest) mod 2 ^ 160) ++ [x1b].

Definition st_deployed : State := constructor (mkEnv deployer 1700000000) oracle1.

Definition st_alice : State :=
  fst (transact (H := toy_evm) st_deployed (mkEnv alice 1700000100)
         (CallRegisterDID "did:x:1" "k1")).

Definition sig_9200 : list byte :=
  toy_sign oracle1 (ethSignedHash (H := toy_evm) 170 true 9200).

(** A deployment whose oracle signer is the zero address (the constructor
    takes any address), in which [alice] registers [did:x:1]. *)
Definition st_unset_oracle : State :=
  fst (transact (H := toy_evm) (constructor (mkEnv deployer 1700000000) 0)
         (mkEnv alice 1700000100) (CallRegisterDID "did:x:1" "k1")).

(** 64 zero bytes and [v = 27]: [r = s = 0], which no key signs. *)
Definition sig_zero : list byte := be_bytes 32 0 ++ be_bytes 32 0 ++ [x1b].

(** [st_alice] after [alice] recorded the verdict (170, REAL, 92.00%). *)
Definition st_recorded : State :=
  fst (transact (H := toy_evm) st_alice (mkEnv alice 1700000200)
         (CallRecordVerification 170 "did:x:1" true 9200 99 sig_9200)).

Definition sig_100 : list byte :=
  toy_sign oracle1 (ethSignedHash (H := toy_evm) 170 false 100).

Definition sig_10001 : list byte :=
  toy_sign oracle1 (ethSignedHash (H := toy_evm) 170 true 10001).

Definition sig_10000 : list byte :=
  toy_sign oracle1 (ethSignedHash (H := toy_evm) 170 true 10000).

(** [st_alice] after the deployer handed the administration to [bob]. *)
Definition st_transferred : State :=
  fst (transact (H := toy_evm) st_alice (mkEnv deployer 1700000500)
         (CallTransferOwnership bob)).

(** [st_alice] with [alice] added to the authorized issuers. *)
Definition st_alice_issuer : State :=
  set_authorizedIssuers (fun _ => <[alice := true]> (authorizedIssuers st_alice)) st_alice.

(** Sixteen bytes as [crypto.getRandomValues] may return them. *)
Definition sample_bytes : list byte :=
  [x00; x01; x0a; x0f; x10; x7f; x80; xff; xde; xad; xbe; xef; x12; x34; x56; x78].

(** ** The verification ledger authenticates the oracle *)

Section Authentication.

Context `{EVM}.

Lemma recordVerification_Ok_iff env st h subj b c cred sig :
  (exists st' log, recordVerification env h subj b c cred sig st = Ok tt st' log) <->
  DIDDocument.isActive (didDocuments_at st (msg_sender env)) = true /\
  h <> 0 /\ c <= 10000 /\ length sig = 65%nat /\ v_ok sig = true /\
  recovered (ethSignedHash h b c) sig = oracleSigner st /\
  totalVerifications st < max_uint256.
Proof.
  rewrite recordVerification_eq. split.
  - intros (st' & log & E). split_ifs_hyp.
    repeat match goal with
           | Hg : (_ =? _) = true |- _ => apply Z.eqb_eq in Hg
           | Hg : (_ =? _) = false |- _ => apply Z.eqb_neq in Hg
           | Hg : (_ <=? _) = true |- _ => apply Z.leb_le in Hg
           | Hg : (_ <? _) = true |- _ => apply Z.ltb_lt in Hg
           end.
    repeat split; try assumption; lia.
  - intros (Ha & Hh & Hc & Hl & Hv & Hr & Ht).
    rewrite Ha, Hv.
    apply Z.eqb_neq in Hh. apply Z.leb_le in Hc. apply Z.eqb_eq in Hr. apply Z.ltb_lt in Ht.
    rewrite Hh, Hc, Hr, Ht.
    replace (Z.of_nat (length sig) =? 65) with true by (symmetry; apply Z.eqb_eq; lia).
    eauto.
Qed.

Lemma recoverSigner_Ok_iff d sig st a :
  recoverSigner d sig st = Ok a st [] <->
  length sig = 65%nat /\ v_ok sig = true /\ recovered d sig = a.
Proof.
  rewrite recoverSigner_eq. split.
  - intros E. split_ifs_hyp.
    match goal with Hg : (_ =? _) = true |- _ => apply Z.eqb_eq in Hg end.
    repeat split; [lia|congruence].
  - intros (Hl & Hv & Hr). rewrite Hv, Hr.
    replace (Z.of_nat (length sig) =? 65) with true by (symmetry; apply Z.eqb_eq; lia).
    reflexivity.
Qed.

(** A call whose signature does not recover to the oracle signer reverts,
    and it reverts for that reason when nothing else is wrong. *)
Lemma recordVerification_wrong_signer env st h subj b c cred sig :
  recovered (ethSignedHash h b c) sig <> oracleSigner st ->
  exists reason,
    recordVerification env h subj b c cred sig st = Revert reason /\
    (DIDDocument.isActive (didDocuments_at st (msg_sender env)) = true ->
     h <> 0 -> c <= 10000 -> length sig = 65%nat -> v_ok sig = true ->
     reason = "Invalid oracle signature").
Proof.
  intros Hne. rewrite recordVerification_eq.
  apply Z.eqb_neq in Hne. rewrite Hne.
  split_ifs; eexists; (split; [reflexivity|]); intros Ha Hh Hc Hl Hv;
    try reflexivity; try discriminate;
    repeat match goal with
           | Hg : (_ =? _) = true |- _ => apply Z.eqb_eq in Hg
           | Hg : (_ =? _) = false |- _ => apply Z.eqb_neq in Hg
           | Hg : (_ <=? _) = false |- _ => apply Z.leb_gt in Hg
           end; try lia; congruence.
Qed.

(** Distinct verdicts have distinct digests, when Keccak-256 does not
    collide on their encodings. *)
Lemma ethSignedHash_inj h b c h' b' c' :
  0 <= h < 2 ^ 256 -> 0 <= c < 2 ^ 256 ->
  0 <= h' < 2 ^ 256 -> 0 <= c' < 2 ^ 256 ->
  collision_free_at (encodePacked_verdict h b c) (encodePacked_verdict h' b' c') ->
  collision_free_at (eth_prefix ++ be_bytes 32 (messageHash h b c))
                    (eth_prefix ++ be_bytes 32 (messageHash h' b' c')) ->
  ethSignedHash h b c = ethSignedHash h' b' c' ->
  (h, b, c) = (h', b', c').
Proof.
  intros Hh Hc Hh' Hc' Hcf1 Hcf2 E.
  apply Hcf2 in E. apply app_inv_head in E.
  apply (be_bytes_inj 32) in E; rewrite ?word_bound; try apply keccak256_range.
  apply Hcf1 in E.
  apply encodePacked_verdict_inj in E as (-> & -> & ->); auto.
Qed.

End Authentication.

(** C1. For a caller holding an active DID document, a non-zero
    contentHash and a confidence in [0, 10000] (and a verification counter
    below its maximum), [recordVerification] returns if and only if
    [recoverSigner], run on the Ethereum-prefixed keccak256 digest of the
    packed (contentHash, isReal, confidence) and the signature, returns
    the current [oracleSigner].  Hence a signature that was accepted for
    one verdict is rejected for any other verdict (Keccak-256 not
    colliding on the two encodings, and the signature not recovering to
    the same address over the two digests), and once [setOracleSigner] has
    installed another signer a signature of the previous one is rejected,
    in every storage that has the new signer. *)
Theorem recordVerification_authenticates_oracle `{EVM} (st : State) :
  (forall env h subj b c cred sig,
     DIDDocument.isActive (didDocuments_at st (msg_sender env)) = true ->
     h <> 0 -> 0 <= c <= 10000 ->
     totalVerifications st < max_uint256 ->
     ((exists st' log, recordVerification env h subj b c cred sig st = Ok tt st' log)
      <-> recoverSigner (ethSignedHash h b c) sig st = Ok (oracleSigner st) st []))
  /\
  (forall h b c sig h' b' c' env' subj' cred',
     recoverSigner (ethSignedHash h b c) sig st = Ok (oracleSigner st) st [] ->
     (h', b', c') <> (h, b, c) ->
     0 <= h < 2 ^ 256 -> 0 <= c < 2 ^ 256 ->
     0 <= h' < 2 ^ 256 -> 0 <= c' < 2 ^ 256 ->
     collision_free_at (encodePacked_verdict h b c) (encodePacked_verdict h' b' c') ->
     collision_free_at (eth_prefix ++ be_bytes 32 (messageHash h b c))
                       (eth_prefix ++ be_bytes 32 (messageHash h' b' c')) ->
     binds_digest sig (ethSignedHash h b c) (ethSignedHash h' b' c') ->
     exists reason,
       recordVerification env' h' subj' b' c' cred' sig st = Revert reason /\
       (DIDDocument.isActive (didDocuments_at st (msg_sender env')) = true ->
        h' <> 0 -> c' <= 10000 -> reason = "Invalid oracle signature"))
  /\
  (forall h b c sig admin _newSigner st2 log,
     recoverSigner (ethSignedHash h b c) sig st = Ok (oracleSigner st) st [] ->
     setOracleSigner admin _newSigner st = Ok tt st2 log ->
     _newSigner <> oracleSigner st ->
     oracleSigner st2 = _newSigner /\
     forall st3 env' subj' cred',
       oracleSigner st3 = _newSigner ->
       exists reason,
         recordVerification env' h subj' b c cred' sig st3 = Revert reason /\
         (DIDDocument.isActive (didDocuments_at st3 (msg_sender env')) = true ->
          h <> 0 -> c <= 10000 -> reason = "Invalid oracle signature")).
Proof.
  split; [|split].
  - intros env h subj b c cred sig Ha Hh Hc Ht.
    rewrite recordVerification_Ok_iff, recoverSigner_Ok_iff. intuition lia.
  - intros h b c sig h' b' c' env' subj' cred' Hsig Hne Hh Hc Hh' Hc' Hcf1 Hcf2 Hbind.
    apply recoverSigner_Ok_iff in Hsig as (Hl & Hv & Hr).
    destruct (recordVerification_wrong_signer env' st h' subj' b' c' cred' sig)
      as (reason & E & Hreason).
    + rewrite <- Hr. apply Hbind. intros E. apply Hne. symmetry.
      by apply ethSignedHash_inj.
    + exists reason. split; [exact E|]. intros; by apply Hreason.
  - intros h b c sig admin s2 st2 log Hsig Hset Hne.
    apply recoverSigner_Ok_iff in Hsig as (Hl & Hv & Hr).
    rewrite setOracleSigner_eq in Hset.
    destruct (msg_sender admin =? owner st); [|discriminate].
    destruct (s2 =? 0); [discriminate|]. injection Hset as <- _.
    split; [reflexivity|].
    intros st3 env' subj' cred' Hst3.
    destruct (recordVerification_wrong_signer env' st3 h subj' b c cred' sig)
      as (reason & E & Hreason).
    + congruence.
    + exists reason. split; [exact E|]. intros; by apply Hreason.
Qed.

Lemma recordVerification_authenticates_oracle_witness :
  (exists st' log,
     recordVerification (H := toy_evm) (mkEnv alice 1700000200)
       170 "did:x:1" true 9200 99 sig_9200 st_alice = Ok tt st' log)
  /\
  (exists reason,
     recordVerification (H := toy_evm) (mkEnv alice 1700000200)
       170 "did:x:1" true 9300 99 sig_9200 st_alice = Revert reason
     /\ reason = "Invalid oracle signature")
  /\
  (exists reason,
     recordVerification (H := toy_evm) (mkEnv alice 1700000200)
       170 "did:x:1" true 9200 99 sig_9200 (set_oracleSigner oracle2 st_alice)
     = Revert reason
     /\ reason = "Invalid oracle signature").
Proof.
  destruct (recordVerification_authenticates_oracle (H := toy_evm) st_alice)
    as (Hiff & Hbind & Hrot).
  split; [|split].
  - apply Hiff.
    + vm_compute; reflexivity.
    + discriminate.
    + lia.
    + vm_compute; reflexivity.
    + vm_compute; reflexivity.
  - destruct (Hbind 170 true 9200 sig_9200 170 true 9300
                (mkEnv alice 1700000200) "did:x:1"%string 99)
      as (reason & E & Hreason).
    + vm_compute; reflexivity.
    + discriminate.
    + lia.
    + lia.
    + lia.
    + lia.
    + intros E; vm_compute in E; discriminate E.
    + intros E; vm_compute in E; discriminate E.
    + intros _ E; vm_compute in E; discriminate E.
    + exists reason. split; [exact E|].
      apply Hreason; [vm_compute; reflexivity|discriminate|lia].
  - destruct (Hrot 170 true 9200 sig_9200 (mkEnv deployer 1700000150) oracle2
                (set_oracleSigner oracle2 st_alice) [])
      as (_ & Hlater).
    + vm_compute; reflexivity.
    + vm_compute; reflexivity.
    + discriminate.
    + destruct (Hlater (set_oracleSigner oracle2 st_alice)
                  (mkEnv alice 1700000200) "did:x:1"%string 99)
        as (reason & E & Hreason); [reflexivity|].
      exists reason. split; [exact E|].
      apply Hreason; [vm_compute; reflexivity|discriminate|lia].
Defined.

(** ** The signature verifier and the zero address *)

(** C2. The code at the failing input: when [ecrecover] answers the zero
    address, [recoverSigner] returns it to its caller as the recovered
    signer, without a revert; a registry whose [oracleSigner] is the zero
    address (the constructor accepts it) then records the verdict. *)
Theorem recoverSigner_returns_zero_address `{EVM} :
  (forall d sig st,
     length sig = 65%nat -> v_ok sig = true -> recovered d sig = 0 ->
     recoverSigner d sig st = Ok 0 st [])
  /\
  (forall env, oracleSigner (constructor env 0) = 0)
  /\
  (forall env st h subj b c cred sig,
     DIDDocument.isActive (didDocuments_at st (msg_sender env)) = true ->
     h <> 0 -> 0 <= c <= 10000 -> totalVerifications st < max_uint256 ->
     oracleSigner st = 0 ->
     length sig = 65%nat -> v_ok sig = true ->
     recovered (ethSignedHash h b c) sig = 0 ->
     recordVerification env h subj b c cred sig st
     = Ok tt (recordVerification_post env h subj b c cred st)
          [VerificationRecorded h subj b c (block_timestamp env)]).
Proof.
  split; [|split].
  - intros d sig st Hl Hv Hr. apply recoverSigner_Ok_iff. auto.
  - reflexivity.
  - intros env st h subj b c cred sig Ha Hh Hc Ht Ho Hl Hv Hr.
    rewrite recordVerification_eq, Ha, Hv, Hr, Ho.
    apply Z.eqb_neq in Hh. rewrite Hh.
    replace (c <=? 10000) with true by (symmetry; apply Z.leb_le; lia).
    replace (Z.of_nat (length sig) =? 65) with true by (symmetry; apply Z.eqb_eq; lia).
    apply Z.ltb_lt in Ht. rewrite Ht. reflexivity.
Qed.

Lemma recoverSigner_returns_zero_address_witness :
  recoverSigner (H := toy_evm) (ethSignedHash (H := toy_evm) 170 true 9200) sig_zero
    st_unset_oracle = Ok 0 st_unset_oracle []
  /\
  recordVerification (H := toy_evm) (mkEnv alice 1700000200)
    170 "did:x:1" true 9200 99 sig_zero st_unset_oracle
  = Ok tt (recordVerification_post (mkEnv alice 1700000200) 170 "did:x:1" true 9200 99
             st_unset_oracle)
       [VerificationRecorded 170 "did:x:1" true 9200 1700000200].
Proof.
  destruct (recoverSigner_returns_zero_address (H := toy_evm)) as (Hrec & _ & Hacc).
  split.
  - apply Hrec; vm_compute; reflexivity.
  - apply Hacc; try (vm_compute; reflexivity); [discriminate|lia].
Defined.

(** ** A second record for the same content hash *)

(** C3, as stated, fails: a record exists for hash 170 (REAL, 9200), and a
    second call for the same hash, signed for (FAKE, 100), returns and
    leaves the new verdict in its place. *)
Lemma recordVerification_overwrites :
  ~ (forall (E : EVM) env st h subj b c cred sig st' log,
       0 < VerificationResult.timestamp (verificationResults_at st h) ->
       recordVerification env h subj b c cred sig st = Ok tt st' log ->
       verificationResults_at st' h = verificationResults_at st h).
Proof.
  intros Hclaim.
  specialize (Hclaim toy_evm (mkEnv alice 1700000300) st_recorded
                170 "did:x:2"%string false 100 77 sig_100
                (recordVerification_post (mkEnv alice 1700000300) 170 "did:x:2" false 100 77
                   st_recorded)
                [VerificationRecorded 170 "did:x:2" false 100 1700000300]).
  assert (Hex : 0 < VerificationResult.timestamp (verificationResults_at st_recorded 170))
    by (vm_compute; reflexivity).
  specialize (Hclaim Hex).
  assert (Hok : recordVerification (H := toy_evm) (mkEnv alice 1700000300) 170 "did:x:2"
                  false 100 77 sig_100 st_recorded
                = Ok tt (recordVerification_post (mkEnv alice 1700000300) 170 "did:x:2"
                           false 100 77 st_recorded)
                     [VerificationRecorded 170 "did:x:2" false 100 1700000300])
    by (vm_compute; reflexivity).
  specialize (Hclaim Hok). vm_compute in Hclaim. discriminate Hclaim.
Qed.

(** C3, amended. A call of [recordVerification] that returns replaces the
    record of its content hash, whether or not one existed: what is stored
    afterwards is the submitted verdict, with the submitter's own DID as
    issuer and the time of the call, and the counter is incremented
    again. *)
Theorem recordVerification_replaces_record `{EVM} env st h subj b c cred sig st' log :
  0 < VerificationResult.timestamp (verificationResults_at st h) ->
  recordVerification env h subj b c cred sig st = Ok tt st' log ->
  verificationResults_at st' h
  = VerificationResult.mk h subj (DIDDocument.did (didDocuments_at st (msg_sender env)))
      b c (block_timestamp env) cred
  /\ totalVerifications st' = totalVerifications st + 1
  /\ log = [VerificationRecorded h subj b c (block_timestamp env)].
Proof.
  intros _ E. rewrite recordVerification_eq in E. split_ifs_hyp.
  injection E as <- <-. unfold recordVerification_post.
  split; [|split]; try reflexivity.
  change (verificationResults_at (set_totalVerifications ?n ?s) ?x)
    with (verificationResults_at s x).
  apply verificationResults_at_insert.
Qed.

Lemma recordVerification_replaces_record_witness :
  verificationResults_at
    (recordVerification_post (mkEnv alice 1700000300) 170 "did:x:2" false 100 77 st_recorded)
    170
  = VerificationResult.mk 170 "did:x:2" "did:x:1" false 100 1700000300 77.
Proof.
  destruct (recordVerification_replaces_record (H := toy_evm)
              (mkEnv alice 1700000300) st_recorded 170 "did:x:2"%string false 100 77 sig_100
              (recordVerification_post (mkEnv alice 1700000300) 170 "did:x:2" false 100 77
                 st_recorded)
              [VerificationRecorded 170 "did:x:2" false 100 1700000300])
    as (Hrec & _ & _).
  - vm_compute; reflexivity.
  - vm_compute; reflexivity.
  - exact Hrec.
Defined.

(** ** The DID registry *)

Section Registry.

Context `{EVM}.

Lemma registerDID_Ok_iff env _did _pk st :
  (exists st' log, registerDID env _did _pk st = Ok tt st' log) <->
  DIDDocument.isActive (didDocuments_at st (msg_sender env)) = false /\
  didToAddress_at st _did = 0 /\ _did <> "" /\ _pk <> "" /\
  totalDIDs st < max_uint256.
Proof.
  rewrite registerDID_eq, <- !nonempty_iff. split.
  - intros (st' & log & E). split_ifs_hyp.
    repeat match goal with
           | Hg : negb _ = false |- _ => apply negb_false_iff in Hg
           | Hg : (_ =? _) = true |- _ => apply Z.eqb_eq in Hg
           | Hg : (_ <? _) = true |- _ => apply Z.ltb_lt in Hg
           end.
    auto.
  - intros (Ha & Hd & Hn & Hk & Ht).
    apply Z.eqb_eq in Hd. apply Z.ltb_lt in Ht.
    rewrite Ha, Hd, Hn, Hk, Ht. cbn [negb]. eauto.
Qed.

Lemma registerDID_Ok_post env _did _pk st st' log :
  registerDID env _did _pk st = Ok tt st' log ->
  st' = registerDID_post env _did _pk st /\
  log = [DIDRegistered (msg_sender env) _did (block_timestamp env)].
Proof.
  rewrite registerDID_eq. intros E. split_ifs_hyp. injection E as <- <-. auto.
Qed.

Lemma registerDID_post_document env _did _pk st :
  didDocuments_at (registerDID_post env _did _pk st) (msg_sender env)
  = DIDDocument.mk (msg_sender env) _did _pk true (block_timestamp env) (block_timestamp env).
Proof.
  unfold registerDID_post.
  change (didDocuments_at (set_totalDIDs ?n (set_didToAddress ?f ?s)) ?x)
    with (didDocuments_at s x).
  apply didDocuments_at_insert.
Qed.

Lemma registerDID_post_document_ne env _did _pk st a :
  msg_sender env <> a ->
  didDocuments_at (registerDID_post env _did _pk st) a = didDocuments_at st a.
Proof.
  intros Hne. unfold registerDID_post.
  change (didDocuments_at (set_totalDIDs ?n (set_didToAddress ?f ?s)) ?x)
    with (didDocuments_at s x).
  by apply didDocuments_at_insert_ne.
Qed.

Lemma registerDID_post_index env _did _pk st :
  didToAddress_at (registerDID_post env _did _pk st) _did = msg_sender env.
Proof.
  unfold registerDID_post.
  change (didToAddress_at (set_totalDIDs ?n ?s) ?x) with (didToAddress_at s x).
  apply didToAddress_at_insert.
Qed.

(** A DID bound to a non-zero account cannot be registered. *)
Lemma registerDID_taken env _did _pk st :
  didToAddress_at st _did <> 0 ->
  exists reason,
    registerDID env _did _pk st = Revert reason /\
    (reason = "DID already registered" \/ reason = "DID already taken").
Proof.
  intros Hne. rewrite registerDID_eq. apply Z.eqb_neq in Hne. rewrite Hne. cbn [negb].
  destruct (DIDDocument.isActive _); eauto.
Qed.

Lemma deactivateDID_Ok_post env st st' log :
  deactivateDID env st = Ok tt st' log ->
  DIDDocument.isActive (didDocuments_at st (msg_sender env)) = true /\
  st' = deactivateDID_post env st.
Proof.
  rewrite deactivateDID_eq. intros E. split_ifs_hyp. injection E as <- _. auto.
Qed.

Lemma deactivateDID_post_document env st :
  didDocuments_at (deactivateDID_post env st) (msg_sender env)
  = DIDDocument.set_updatedAt (block_timestamp env)
      (DIDDocument.set_isActive false (didDocuments_at st (msg_sender env))).
Proof.
  unfold deactivateDID_post.
  change (didDocuments_at (set_didToAddress ?f ?s) ?x) with (didDocuments_at s x).
  apply didDocuments_at_insert.
Qed.

Lemma deactivateDID_post_index env st :
  didToAddress_at (deactivateDID_post env st)
    (DIDDocument.did (didDocuments_at st (msg_sender env))) = 0.
Proof. unfold deactivateDID_post. apply didToAddress_at_delete. Qed.

End Registry.

(** C4. DID uniqueness and reusability, in a storage reachable from
    deployment and for accounts [A <> B] ([A] not the zero address).
    - When [A] registers [D], the document of [A] is active with [D], and
      a [registerDID(D, _)] by [B] reverts.
    - Whenever the document of [A] is active with DID [D], a
      [registerDID(D, _)] by [B] reverts.
    - While the document of [A] is active, [A] cannot register again.
    - When [A] deactivates, the reverse index at [D] reads the zero
      address, the document of [A] is still stored, with [isActive = false],
      and [B] (holding no active document, with a non-empty key and the
      DID counter below its maximum) registers [D]; the document of [A]
      is stored as before. *)
Theorem did_unique_and_reusable `{EVM} (st : State) (A B : Z) (D : string) :
  reachable st -> A <> 0 -> A <> B ->
  (forall envA k st1 log,
     msg_sender envA = A ->
     registerDID envA D k st = Ok tt st1 log ->
     DIDDocument.isActive (didDocuments_at st1 A) = true /\
     DIDDocument.did (didDocuments_at st1 A) = D /\
     didToAddress_at st1 D = A /\
     forall envB kB, msg_sender envB = B ->
       exists reason, registerDID envB D kB st1 = Revert reason)
  /\
  (DIDDocument.isActive (didDocuments_at st A) = true ->
   DIDDocument.did (didDocuments_at st A) = D ->
   forall envB kB, msg_sender envB = B ->
     exists reason, registerDID envB D kB st = Revert reason /\
       (reason = "DID already registered" \/ reason = "DID already taken"))
  /\
  (DIDDocument.isActive (didDocuments_at st A) = true ->
   forall envA D' k, msg_sender envA = A ->
     registerDID envA D' k st = Revert "DID already registered")
  /\
  (DIDDocument.isActive (didDocuments_at st A) = true ->
   DIDDocument.did (didDocuments_at st A) = D ->
   forall envA st2 log,
     msg_sender envA = A ->
     deactivateDID envA st = Ok tt st2 log ->
     didToAddress_at st2 D = 0 /\
     didDocuments_at st2 A
     = DIDDocument.set_updatedAt (block_timestamp envA)
         (DIDDocument.set_isActive false (didDocuments_at st A)) /\
     DIDDocument.isActive (didDocuments_at st2 A) = false /\
     DIDDocument.did (didDocuments_at st2 A) = D /\
     forall envB kB,
       msg_sender envB = B ->
       DIDDocument.isActive (didDocuments_at st2 B) = false ->
       kB <> "" -> totalDIDs st2 < max_uint256 ->
       exists st3 log3,
         registerDID envB D kB st2 = Ok tt st3 log3 /\
         didToAddress_at st3 D = B /\
         DIDDocument.isActive (didDocuments_at st3 B) = true /\
         DIDDocument.did (didDocuments_at st3 B) = D /\
         didDocuments_at st3 A = didDocuments_at st2 A).
Proof.
  intros Hreach HA HAB.
  pose proof (reachable_index_consistent st Hreach) as Hidx.
  pose proof (reachable_active_did_nonempty st Hreach) as Hne.
  split; [|split; [|split]].
  - intros envA k st1 log <- E.
    apply registerDID_Ok_post in E as [-> _].
    rewrite registerDID_post_document, registerDID_post_index. cbn.
    repeat split.
    intros envB kB HB.
    destruct (registerDID_taken envB D kB (registerDID_post envA D k st)) as (r & E & _).
    + by rewrite registerDID_post_index.
    + eauto.
  - intros Hact Hdid envB kB HB.
    apply registerDID_taken. rewrite <- Hdid, (Hidx A HA Hact). exact HA.
  - intros Hact envA D' k <-. by rewrite registerDID_eq, Hact.
  - intros Hact Hdid envA st2 log <- E.
    apply deactivateDID_Ok_post in E as [_ ->].
    rewrite deactivateDID_post_document. rewrite <- Hdid at 1.
    rewrite deactivateDID_post_index.
    split; [reflexivity|]. split; [reflexivity|]. split; [reflexivity|].
    split; [exact Hdid|].
    intros envB kB <- HactB HkB Ht.
    assert (Hok : exists st3 log3,
               registerDID envB D kB (deactivateDID_post envA st) = Ok tt st3 log3).
    { apply registerDID_Ok_iff. repeat split; try assumption.
      - rewrite <- Hdid. apply deactivateDID_post_index.
      - apply nonempty_iff. rewrite <- Hdid. by apply Hne. }
    destruct Hok as (st3 & log3 & E). exists st3, log3. split; [exact E|].
    apply registerDID_Ok_post in E as [-> _].
    rewrite registerDID_post_index, registerDID_post_document. cbn.
    repeat split.
    rewrite registerDID_post_document_ne by congruence.
    apply deactivateDID_post_document.
Qed.

Lemma st_deployed_reachable : reachable (H := toy_evm) st_deployed.
Proof. apply reachable_deploy. discriminate. Qed.

Lemma st_alice_reachable : reachable (H := toy_evm) st_alice.
Proof. apply reachable_transact; [apply st_deployed_reachable|discriminate]. Qed.

Lemma did_unique_and_reusable_witness :
  (* bob cannot take the DID alice has just registered *)
  (exists reason,
     registerDID (mkEnv bob 1700000200) "did:x:1" "k2"
       (registerDID_post (mkEnv alice 1700000100) "did:x:1" "k1" st_deployed)
     = Revert reason)
  /\
  (* alice cannot register a second DID *)
  registerDID (mkEnv alice 1700000200) "did:x:2" "k3" st_alice
  = Revert "DID already registered"
  /\
  (* bob takes the DID once alice has deactivated *)
  (exists st3 log3,
     registerDID (mkEnv bob 1700000400) "did:x:1" "k2"
       (deactivateDID_post (mkEnv alice 1700000300) st_alice) = Ok tt st3 log3
     /\ didToAddress_at st3 "did:x:1" = bob
     /\ DIDDocument.isActive (didDocuments_at st3 alice) = false).
Proof.
  assert (Ha0 : alice <> 0) by discriminate.
  assert (Hab : alice <> bob) by discriminate.
  destruct (did_unique_and_reusable (H := toy_evm) st_deployed alice bob "did:x:1"
              st_deployed_reachable Ha0 Hab) as (Hreg & _).
  destruct (did_unique_and_reusable (H := toy_evm) st_alice alice bob "did:x:1"
              st_alice_reachable Ha0 Hab) as (_ & _ & Hone & Hdeact).
  split; [|split].
  - destruct (Hreg (mkEnv alice 1700000100) "k1"%string
                (registerDID_post (mkEnv alice 1700000100) "did:x:1" "k1" st_deployed)
                [DIDRegistered alice "did:x:1" 1700000100]) as (_ & _ & _ & Hbob).
    + reflexivity.
    + vm_compute; reflexivity.
    + apply (Hbob (mkEnv bob 1700000200) "k2"%string). reflexivity.
  - apply Hone; [vm_compute; reflexivity|reflexivity].
  - destruct (Hdeact) with (envA := mkEnv alice 1700000300)
      (st2 := deactivateDID_post (mkEnv alice 1700000300) st_alice)
      (log := [DIDDeactivated alice "did:x:1" 1700000300])
      as (_ & _ & Hinactive & _ & Hbob).
    + vm_compute; reflexivity.
    + vm_compute; reflexivity.
    + reflexivity.
    + vm_compute; reflexivity.
    + destruct (Hbob (mkEnv bob 1700000400) "k2"%string)
        as (st3 & log3 & E & Hidx & _ & _ & HdocA).
      * reflexivity.
      * vm_compute; reflexivity.
      * discriminate.
      * vm_compute; reflexivity.
      * exists st3, log3. split; [exact E|]. split; [exact Hidx|].
        rewrite HdocA. exact Hinactive.
Defined.

(** ** The confidence bound *)

(** C5. For a caller holding an active DID, a non-zero contentHash and a
    signature that recovers to the current oracle signer,
    [recordVerification] reverts for every confidence above 10000 and
    returns for every confidence in [0, 10000] (the verification counter
    being below its maximum). *)
Theorem recordVerification_confidence_bound `{EVM} env st h subj b c cred sig :
  DIDDocument.isActive (didDocuments_at st (msg_sender env)) = true ->
  h <> 0 ->
  recoverSigner (ethSignedHash h b c) sig st = Ok (oracleSigner st) st [] ->
  (10000 < c ->
   recordVerification env h subj b c cred sig st = Revert "Confidence must be <= 10000")
  /\
  (0 <= c <= 10000 -> totalVerifications st < max_uint256 ->
   recordVerification env h subj b c cred sig st
   = Ok tt (recordVerification_post env h subj b c cred st)
        [VerificationRecorded h subj b c (block_timestamp env)]).
Proof.
  intros Ha Hh Hsig.
  apply recoverSigner_Ok_iff in Hsig as (Hl & Hv & Hr).
  rewrite recordVerification_eq, Ha, Hv, Hr, Z.eqb_refl.
  apply Z.eqb_neq in Hh. rewrite Hh.
  split.
  - intros Hc. apply Z.leb_gt in Hc. by rewrite Hc.
  - intros Hc Ht.
    replace (c <=? 10000) with true by (symmetry; apply Z.leb_le; lia).
    replace (Z.of_nat (length sig) =? 65) with true by (symmetry; apply Z.eqb_eq; lia).
    apply Z.ltb_lt in Ht. by rewrite Ht.
Qed.

Lemma recordVerification_confidence_bound_witness :
  recordVerification (H := toy_evm) (mkEnv alice 1700000200)
    170 "did:x:1" true 10001 99 sig_10001 st_alice
  = Revert "Confidence must be <= 10000"
  /\
  recordVerification (H := toy_evm) (mkEnv alice 1700000200)
    170 "did:x:1" true 10000 99 sig_10000 st_alice
  = Ok tt (recordVerification_post (mkEnv alice 1700000200) 170 "did:x:1" true 10000 99
             st_alice)
       [VerificationRecorded 170 "did:x:1" true 10000 1700000200].
Proof.
  split.
  - apply (recordVerification_confidence_bound (H := toy_evm)).
    + vm_compute; reflexivity.
    + discriminate.
    + vm_compute; reflexivity.
    + lia.
  - apply (recordVerification_confidence_bound (H := toy_evm)).
    + vm_compute; reflexivity.
    + discriminate.
    + vm_compute; reflexivity.
    + lia.
    + vm_compute; reflexivity.
Defined.

(** ** The administrator is an authorized issuer *)

(** C6. The administrator is an authorized issuer in every storage
    reachable from deployment: the deployer is authorized by the
    constructor; [revokeIssuer] reverts when its target is the current
    administrator; [transferOwnership] reverts on the zero address, and
    when it returns it has de-authorized the outgoing administrator and
    then authorized the incoming one, who is the new [owner]; and
    [authorizedIssuers[owner]] is preserved by every transaction. *)
Theorem owner_always_authorized `{EVM} :
  (forall env _oracleSigner,
     owner (constructor env _oracleSigner) = msg_sender env /\
     authorizedIssuers_at (constructor env _oracleSigner) (msg_sender env) = true)
  /\
  (forall env st, exists reason, revokeIssuer env (owner st) st = Revert reason)
  /\
  (forall env st, exists reason, transferOwnership env 0 st = Revert reason)
  /\
  (forall env _newOwner st st' log,
     transferOwnership env _newOwner st = Ok tt st' log ->
     st' = set_authorizedIssuers (<[_newOwner := true]>)
             (set_owner _newOwner (set_authorizedIssuers (<[owner st := false]>) st)) /\
     owner st' = _newOwner /\
     authorizedIssuers_at st' _newOwner = true /\
     (_newOwner <> owner st -> authorizedIssuers_at st' (owner st) = false))
  /\
  (forall st env c,
     authorizedIssuers_at st (owner st) = true ->
     authorizedIssuers_at (fst (transact st env c)) (owner (fst (transact st env c))) = true)
  /\
  (forall st, reachable st -> authorizedIssuers_at st (owner st) = true).
Proof.
  repeat apply conj.
  - intros env sg. split; [reflexivity|]. apply (constructor_owner_authorized env sg).
  - intros env st. rewrite revokeIssuer_eq, Z.eqb_refl.
    destruct (msg_sender env =? owner st), (authorizedIssuers_at st (owner st)); eauto.
  - intros env st. rewrite transferOwnership_eq. cbn.
    destruct (msg_sender env =? owner st); eauto.
  - intros env a st st' log E. rewrite transferOwnership_eq in E. split_ifs_hyp.
    injection E as <- _. unfold transferOwnership_post.
    split; [reflexivity|]. split; [reflexivity|]. split.
    + apply authorizedIssuers_at_insert.
    + intros Hne. rewrite authorizedIssuers_at_insert_ne by assumption.
      change (authorizedIssuers_at (set_owner ?o ?s) ?x) with (authorizedIssuers_at s x).
      apply authorizedIssuers_at_insert.
  - intros st env c. apply transact_owner_authorized.
  - apply reachable_owner_authorized.
Qed.

Lemma owner_always_authorized_witness :
  owner st_transferred = bob /\
  authorizedIssuers_at st_transferred bob = true /\
  authorizedIssuers_at st_transferred deployer = false.
Proof.
  destruct (owner_always_authorized (H := toy_evm)) as (_ & _ & _ & Htransfer & _ & Hreach).
  destruct (Htransfer (mkEnv deployer 1700000500) bob st_alice st_transferred [])
    as (_ & Hown & _ & Hout).
  - vm_compute; reflexivity.
  - split; [exact Hown|]. split.
    + rewrite <- Hown at 1. apply Hreach.
      apply reachable_transact; [apply st_alice_reachable|discriminate].
    + apply Hout. discriminate.
Defined.

(** ** Counters and failed calls *)

(** C7. [totalDIDs] is one more after every [registerDID] that returns,
    [totalVerifications] is one more after every [recordVerification]
    that returns (the other counter is as before); and a transaction
    whose call does not return leaves the whole storage, both counters
    included, as it was.  Over any transaction, each counter moves by one
    when the call is its own operation and returns, and by nothing
    otherwise. *)
Theorem counters_step_and_failed_calls `{EVM} :
  (forall env _did _pk st st' log,
     registerDID env _did _pk st = Ok tt st' log ->
     totalDIDs st' = totalDIDs st + 1 /\
     totalVerifications st' = totalVerifications st)
  /\
  (forall env h subj b c cred sig st st' log,
     recordVerification env h subj b c cred sig st = Ok tt st' log ->
     totalVerifications st' = totalVerifications st + 1 /\
     totalDIDs st' = totalDIDs st)
  /\
  (forall st env c,
     succeeded (snd (transact st env c)) = false ->
     fst (transact st env c) = st)
  /\
  (forall st env c,
     totalDIDs (fst (transact st env c))
     = totalDIDs st + registrations c (snd (transact st env c)) /\
     totalVerifications (fst (transact st env c))
     = totalVerifications st + records c (snd (transact st env c))).
Proof.
  split; [|split; [|split]].
  - intros env d k st st' log E. apply registerDID_Ok_post in E as [-> _]. auto.
  - intros env h subj b c cred sig st st' log E.
    rewrite recordVerification_eq in E. split_ifs_hyp. injection E as <- _. auto.
  - intros st env c. apply transact_failed.
  - intros st env c.
    call_cases c; cbn [registrations records succeeded];
      unfold registerDID_post, updateDIDPublicKey_post, deactivateDID_post,
        recordVerification_post, submitZKProof_post, transferOwnership_post;
      cbn [totalDIDs totalVerifications set_totalDIDs set_totalVerifications
           set_didDocuments set_didToAddress set_verificationResults set_zkProofs
           set_authorizedIssuers set_owner set_oracleSigner];
      lia.
Qed.

Lemma counters_step_and_failed_calls_witness :
  totalDIDs st_alice = totalDIDs st_deployed + 1 /\
  totalVerifications st_recorded = totalVerifications st_alice + 1 /\
  fst (transact (H := toy_evm) st_alice (mkEnv alice 1700000200)
         (CallRecordVerification 170 "did:x:1" true 9300 99 sig_9200)) = st_alice.
Proof.
  destruct (counters_step_and_failed_calls (H := toy_evm)) as (Hreg & Hrec & Hfail & _).
  split; [|split].
  - refine (proj1 (Hreg (mkEnv alice 1700000100) "did:x:1"%string "k1"%string
                     st_deployed st_alice
                     [DIDRegistered alice "did:x:1" 1700000100] _)).
    vm_compute; reflexivity.
  - refine (proj1 (Hrec (mkEnv alice 1700000200) 170 "did:x:1"%string true 9200 99
                     sig_9200 st_alice st_recorded
                     [VerificationRecorded 170 "did:x:1" true 9200 1700000200] _)).
    vm_compute; reflexivity.
  - apply Hfail. vm_compute; reflexivity.
Defined.

(** ** The proof commitment store *)

(** C8, as stated, fails: [submitZKProof] with contentHash 170, proofHash
    187 and a zero publicInputHash returns. *)
Lemma submitZKProof_accepts_zero_publicInputHash :
  ~ (forall env st h p q,
       h = 0 \/ p = 0 \/ q = 0 ->
       exists reason, submitZKProof env h p q st = Revert reason).
Proof.
  intros Hclaim.
  destruct (Hclaim (mkEnv alice 1700000200) st_alice 170 187 0) as (reason & E); [auto|].
  rewrite submitZKProof_eq in E. cbn in E. discriminate E.
Qed.

(** C8, amended. [submitZKProof] reverts when contentHash or proofHash is
    zero; otherwise (whatever publicInputHash is) it returns and the
    commitment stored for the contentHash has the given hashes,
    [isValid = false] and the time of the call.  [verifyZKProof] reverts
    when the stored timestamp is zero, and otherwise returns whether the
    stored proofHash equals the expected one. *)
Theorem zk_commitment_store :
  (forall env st h p q,
     h = 0 \/ p = 0 -> exists reason, submitZKProof env h p q st = Revert reason)
  /\
  (forall env st h p q,
     h <> 0 -> p <> 0 ->
     exists st',
       submitZKProof env h p q st
       = Ok tt st' [ZKProofSubmitted h p (block_timestamp env)] /\
       zkProofs_at st' h = ZKProof.mk p q false (block_timestamp env))
  /\
  (forall st h e,
     ZKProof.timestamp (zkProofs_at st h) = 0 ->
     verifyZKProof h e st = Revert "ZK Proof not found")
  /\
  (forall st h e,
     0 < ZKProof.timestamp (zkProofs_at st h) ->
     verifyZKProof h e st = Ok (ZKProof.proofHash (zkProofs_at st h) =? e) st []).
Proof.
  repeat apply conj.
  - intros env st h p q [-> | ->]; rewrite submitZKProof_eq; cbn [Z.eqb]; eauto.
    destruct (h =? 0); eauto.
  - intros env st h p q Hh Hp. rewrite submitZKProof_eq.
    apply Z.eqb_neq in Hh, Hp. rewrite Hh, Hp.
    eexists; split; [reflexivity|]. apply zkProofs_at_insert.
  - intros st h e Hts. rewrite verifyZKProof_eq, Hts. reflexivity.
  - intros st h e Hts. rewrite verifyZKProof_eq. apply Z.ltb_lt in Hts. by rewrite Hts.
Qed.

Lemma zk_commitment_store_witness :
  (exists reason, submitZKProof (mkEnv alice 1700000200) 170 0 5 st_alice = Revert reason)
  /\
  verifyZKProof 170 187 st_alice = Revert "ZK Proof not found"
  /\
  verifyZKProof 170 188
    (submitZKProof_post (mkEnv alice 1700000200) 170 187 0 st_alice)
  = Ok false (submitZKProof_post (mkEnv alice 1700000200) 170 187 0 st_alice) [].
Proof.
  destruct zk_commitment_store as (Hzero & Hsubmit & Hnone & Hcheck).
  split; [|split].
  - apply Hzero. right. reflexivity.
  - apply Hnone. vm_compute; reflexivity.
  - destruct (Hsubmit (mkEnv alice 1700000200) st_alice 170 187 0) as (st' & E & Hst');
      [discriminate|discriminate|].
    rewrite submitZKProof_eq in E. cbn [Z.eqb] in E. injection E as <-.
    rewrite (Hcheck _ 170 188); [|rewrite Hst'; reflexivity].
    rewrite Hst'. reflexivity.
Defined.

(** ** The issuer set and the verification ledger *)

(** C9. [recordVerification] does not read the authorized-issuer set: run
    on two storages that differ at most in that set, it has the same
    outcome (the same events, the same revert reason, the same panic),
    and the storages it leaves again differ at most in that set, which the
    call leaves as it was.  No transaction ever reverts with the reason of
    [onlyAuthorizedIssuer], which is the reason that modifier reverts with
    for a caller outside the set. *)
Theorem recordVerification_ignores_issuers `{EVM} :
  (forall env st1 st2 h subj b c cred sig,
     same_but_issuers st1 st2 ->
     match recordVerification env h subj b c cred sig st1,
           recordVerification env h subj b c cred sig st2 with
     | Ok _ st1' log1, Ok _ st2' log2 =>
         log1 = log2 /\
         same_but_issuers st1' st2' /\
         verificationResults st1' = verificationResults st2' /\
         totalVerifications st1' = totalVerifications st2' /\
         authorizedIssuers st1' = authorizedIssuers st1 /\
         authorizedIssuers st2' = authorizedIssuers st2
     | Revert r1, Revert r2 => r1 = r2
     | Panic c1, Panic c2 => c1 = c2
     | _, _ => False
     end)
  /\
  (forall st env c, snd (transact st env c) <> Reverted "Not an authorized issuer")
  /\
  (forall env st,
     authorizedIssuers_at st (msg_sender env) = false ->
     onlyAuthorizedIssuer env st = Revert "Not an authorized issuer").
Proof.
  split; [|split].
  - intros env st1 st2 h subj b c cred sig Hsame.
    rewrite !recordVerification_eq. rewrite Hsame.
    change (didDocuments_at (set_authorizedIssuers ?f ?s) ?x) with (didDocuments_at s x).
    cbn [oracleSigner totalVerifications set_authorizedIssuers].
    split_ifs; try reflexivity.
    unfold same_but_issuers. repeat split.
  - intros st env c. call_cases c; discriminate.
  - intros env st Hout. unfold onlyAuthorizedIssuer. run_monad. by rewrite Hout.
Qed.

Lemma recordVerification_ignores_issuers_witness :
  authorizedIssuers_at st_alice alice = false /\
  authorizedIssuers_at st_alice_issuer alice = true /\
  match recordVerification (H := toy_evm) (mkEnv alice 1700000200)
          170 "did:x:1" true 9200 99 sig_9200 st_alice,
        recordVerification (H := toy_evm) (mkEnv alice 1700000200)
          170 "did:x:1" true 9200 99 sig_9200 st_alice_issuer with
  | Ok _ st1' log1, Ok _ st2' log2 =>
      log1 = log2 /\ verificationResults st1' = verificationResults st2'
  | _, _ => False
  end.
Proof.
  destruct (recordVerification_ignores_issuers (H := toy_evm)) as (Hsame & _ & _).
  split; [vm_compute; reflexivity|]. split; [vm_compute; reflexivity|].
  assert (Hs : same_but_issuers st_alice st_alice_issuer) by reflexivity.
  pose proof (Hsame (mkEnv alice 1700000200) st_alice st_alice_issuer
                170 "did:x:1"%string true 9200 99 sig_9200 Hs) as Hrun.
  destruct (recordVerification (mkEnv alice 1700000200) 170 "did:x:1" true 9200 99
              sig_9200 st_alice) as [u1 s1 l1|r1|c1] eqn:E1;
    [|vm_compute in E1; discriminate E1..].
  destruct (recordVerification (mkEnv alice 1700000200) 170 "did:x:1" true 9200 99
              sig_9200 st_alice_issuer) as [u2 s2 l2|r2|c2];
    [|destruct Hrun..].
  destruct Hrun as (Hlog & _ & Hres & _). split; assumption.
Defined.

(** ** Registering again after deactivation *)

(** C10. An account that has deactivated its document keeps it, inactive,
    and can call [registerDID] again with a non-empty DID that is not
    bound and a non-empty key (the DID counter being below its maximum).
    The call returns and the document then stored for the account is the
    new one: its DID, key and [createdAt] are those of the new
    registration, and nothing of the deactivated document is kept. *)
Theorem registerDID_after_deactivation env0 env _did _pk st0 st1 log0 :
  deactivateDID env0 st0 = Ok tt st1 log0 ->
  msg_sender env = msg_sender env0 ->
  didToAddress_at st1 _did = 0 -> _did <> "" -> _pk <> "" ->
  totalDIDs st1 < max_uint256 ->
  didDocuments_at st1 (msg_sender env)
  = DIDDocument.set_updatedAt (block_timestamp env0)
      (DIDDocument.set_isActive false (didDocuments_at st0 (msg_sender env)))
  /\
  exists st2 log,
    registerDID env _did _pk st1 = Ok tt st2 log /\
    didDocuments_at st2 (msg_sender env)
    = DIDDocument.mk (msg_sender env) _did _pk true
        (block_timestamp env) (block_timestamp env) /\
    didToAddress_at st2 _did = msg_sender env.
Proof.
  intros Hde Hsender Hfree Hd Hk Ht.
  apply deactivateDID_Ok_post in Hde as [Hact ->].
  rewrite Hsender. rewrite deactivateDID_post_document.
  split; [reflexivity|].
  assert (Hok : exists st2 log,
             registerDID env _did _pk (deactivateDID_post env0 st0) = Ok tt st2 log).
  { apply registerDID_Ok_iff. repeat split; try assumption.
    rewrite Hsender, deactivateDID_post_document. reflexivity. }
  destruct Hok as (st2 & log & E). exists st2, log. split; [exact E|].
  apply registerDID_Ok_post in E as [-> _].
  rewrite <- Hsender. split; [apply registerDID_post_document|apply registerDID_post_index].
Qed.

Lemma registerDID_after_deactivation_witness :
  didDocuments_at (deactivateDID_post (mkEnv alice 1700000300) st_alice) alice
  = DIDDocument.mk alice "did:x:1" "k1" false 1700000100 1700000300
  /\
  exists st2 log,
    registerDID (mkEnv alice 1700000400) "did:x:9" "k9"
      (deactivateDID_post (mkEnv alice 1700000300) st_alice) = Ok tt st2 log /\
    didDocuments_at st2 alice
    = DIDDocument.mk alice "did:x:9" "k9" true 1700000400 1700000400.
Proof.
  destruct (registerDID_after_deactivation
              (mkEnv alice 1700000300) (mkEnv alice 1700000400)
              "did:x:9"%string "k9"%string st_alice
              (deactivateDID_post (mkEnv alice 1700000300) st_alice)
              [DIDDeactivated alice "did:x:1" 1700000300])
    as (Hold & st2 & log & E & Hnew & _).
  - vm_compute; reflexivity.
  - reflexivity.
  - vm_compute; reflexivity.
  - discriminate.
  - discriminate.
  - vm_compute; reflexivity.
  - split.
    + etransitivity; [exact Hold|vm_compute; reflexivity].
    + exists st2, log. split; [exact E|exact Hnew].
Defined.

(** ** More invariants of reachable storages *)

Section MoreInvariants.

Context `{EVM}.

Lemma transact_index_sound st env c :
  index_sound st -> index_sound (fst (transact st env c)).
Proof.
  intros Hinv. destruct (mutating c) eqn:Hmut; [|by rewrite transact_view].
  call_cases c; try discriminate Hmut; try assumption.
  - (* registerDID *)
    intros d Hd. unfold registerDID_post in *.
    change (didDocuments_at (set_totalDIDs ?n (set_didToAddress ?f ?s)) ?x)
      with (didDocuments_at s x) in *.
    change (didToAddress_at (set_totalDIDs ?n ?s) ?x) with (didToAddress_at s x) in *.
    destruct (decide (_did = d)) as [<-|Hne].
    + rewrite didToAddress_at_insert, didDocuments_at_insert. done.
    + rewrite didToAddress_at_insert_ne in * by assumption.
      change (didToAddress_at (set_didDocuments ?f ?s) ?x) with (didToAddress_at s x) in *.
      destruct (Hinv d Hd) as [Hact Hdid].
      rewrite didDocuments_at_insert_ne; [done|].
      intros E. rewrite <- E in Hact. congruence.
  - (* updateDIDPublicKey *)
    intros d Hd. unfold updateDIDPublicKey_post in *.
    change (didToAddress_at (set_didDocuments ?f ?s) ?x) with (didToAddress_at s x) in *.
    destruct (Hinv d Hd) as [Hact Hdid].
    destruct (decide (msg_sender env = didToAddress_at st d)) as [E|Hne].
    + rewrite <- E in *. rewrite didDocuments_at_insert. done.
    + by rewrite didDocuments_at_insert_ne.
  - (* deactivateDID *)
    intros d Hd. unfold deactivateDID_post in *.
    change (didDocuments_at (set_didToAddress ?f ?s) ?x) with (didDocuments_at s x) in *.
    destruct (decide (DIDDocument.did (didDocuments_at st (msg_sender env)) = d)) as [E|Hne].
    + rewrite <- E in Hd. by rewrite didToAddress_at_delete in Hd.
    + rewrite didToAddress_at_delete_ne in * by assumption.
      change (didToAddress_at (set_didDocuments ?f ?s) ?x) with (didToAddress_at s x) in *.
      destruct (Hinv d Hd) as [Hact Hdid].
      rewrite didDocuments_at_insert_ne; [done|].
      intros E. rewrite <- E in Hdid. congruence.
Qed.

Lemma reachable_index_sound st : reachable st -> index_sound st.
Proof.
  induction 1 as [env sg Hs|st env c Hr IH Hs].
  - intros d Hd. by destruct Hd.
  - by apply transact_index_sound.
Qed.

Lemma transact_owner_field st env c :
  owner_field st -> owner_field (fst (transact st env c)).
Proof.
  intros Hinv. destruct (mutating c) eqn:Hmut; [|by rewrite transact_view].
  call_cases c; try discriminate Hmut; try assumption.
  - intros a Ha. unfold registerDID_post in *.
    change (didDocuments_at (set_totalDIDs ?n (set_didToAddress ?f ?s)) ?x)
      with (didDocuments_at s x) in *.
    destruct (decide (msg_sender env = a)) as [<-|Hne].
    + by rewrite didDocuments_at_insert.
    + rewrite didDocuments_at_insert_ne in * by assumption. by apply Hinv.
  - intros a Ha. unfold updateDIDPublicKey_post in *.
    destruct (decide (msg_sender env = a)) as [<-|Hne].
    + rewrite didDocuments_at_insert. cbn. by apply Hinv.
    + rewrite didDocuments_at_insert_ne in * by assumption. by apply Hinv.
  - intros a Ha. unfold deactivateDID_post in *.
    change (didDocuments_at (set_didToAddress ?f ?s) ?x) with (didDocuments_at s x) in *.
    destruct (decide (msg_sender env = a)) as [<-|Hne].
    + rewrite didDocuments_at_insert in Ha. discriminate Ha.
    + rewrite didDocuments_at_insert_ne in * by assumption. by apply Hinv.
Qed.

Lemma reachable_owner_field st : reachable st -> owner_field st.
Proof.
  induction 1 as [env sg Hs|st env c Hr IH Hs].
  - intros a Ha. discriminate Ha.
  - by apply transact_owner_field.
Qed.

End MoreInvariants.

(** ** Resolving DIDs *)

(** X2. In a storage reachable from deployment, [resolveDID] either
    reverts because the DID is bound to no account, or returns the active
    document of the account the DID is bound to, whose [did] is the DID
    asked for and whose [owner] is that account; it never reverts with
    "DID is deactivated". *)
Theorem resolveDID_sound `{EVM} st d :
  reachable st ->
  (didToAddress_at st d = 0 /\ resolveDID d st = Revert "DID not found")
  \/
  (exists doc,
     resolveDID d st = Ok doc st [] /\
     doc = didDocuments_at st (didToAddress_at st d) /\
     DIDDocument.did doc = d /\
     DIDDocument.isActive doc = true /\
     DIDDocument.owner doc = didToAddress_at st d /\
     DIDDocument.owner doc <> 0).
Proof.
  intros Hreach. rewrite resolveDID_eq.
  destruct (didToAddress_at st d =? 0) eqn:E.
  - left. apply Z.eqb_eq in E. auto.
  - right. apply Z.eqb_neq in E.
    destruct (reachable_index_sound st Hreach d E) as [Hact Hdid].
    pose proof (reachable_owner_field st Hreach _ Hact) as Hown.
    rewrite Hact. eexists. split; [reflexivity|]. rewrite Hown. auto.
Qed.

Lemma resolveDID_sound_witness :
  exists doc,
    resolveDID "did:x:1" st_alice = Ok doc st_alice [] /\
    DIDDocument.owner doc = alice.
Proof.
  destruct (resolveDID_sound (H := toy_evm) st_alice "did:x:1" st_alice_reachable)
    as [[Hnone _]|(doc & E & _ & _ & _ & Hown & _)].
  - vm_compute in Hnone. discriminate Hnone.
  - exists doc. split; [exact E|]. rewrite Hown. vm_compute; reflexivity.
Defined.

(** X3. After a [registerDID(d, k)] that returns, called by an account
    other than the zero address, [resolveDID(d)] and the caller's
    [getMyDID()] both return the document just created: owner the caller,
    DID [d], key [k], active, created and updated at the time of the
    call. *)
Theorem registerDID_then_resolve env _did _pk st st' log :
  msg_sender env <> 0 ->
  registerDID env _did _pk st = Ok tt st' log ->
  resolveDID _did st'
  = Ok (DIDDocument.mk (msg_sender env) _did _pk true
          (block_timestamp env) (block_timestamp env)) st' []
  /\
  getMyDID env st'
  = Ok (DIDDocument.mk (msg_sender env) _did _pk true
          (block_timestamp env) (block_timestamp env)) st' [].
Proof.
  intros Hs E. apply registerDID_Ok_post in E as [-> _].
  rewrite resolveDID_eq, getMyDID_eq, registerDID_post_index, registerDID_post_document.
  apply Z.eqb_neq in Hs. rewrite Hs. cbn. auto.
Qed.

Lemma registerDID_then_resolve_witness :
  resolveDID "did:x:1" st_alice
  = Ok (DIDDocument.mk alice "did:x:1" "k1" true 1700000100 1700000100) st_alice [].
Proof.
  refine (proj1 (registerDID_then_resolve (mkEnv alice 1700000100)
                   "did:x:1"%string "k1"%string st_deployed st_alice
                   [DIDRegistered alice "did:x:1" 1700000100] _ _)).
  - discriminate.
  - vm_compute; reflexivity.
Defined.

(** X4. In a reachable storage the two views of the registry agree: if
    [getMyDID] returns a document to a caller other than the zero address,
    [resolveDID] of that document's DID returns the same document; and if
    [resolveDID] returns a document, [getMyDID] called by its [owner]
    returns it. *)
Theorem getMyDID_resolveDID_agree `{EVM} st :
  reachable st ->
  (forall env doc,
     msg_sender env <> 0 ->
     getMyDID env st = Ok doc st [] ->
     resolveDID (DIDDocument.did doc) st = Ok doc st [])
  /\
  (forall d doc env,
     resolveDID d st = Ok doc st [] ->
     msg_sender env = DIDDocument.owner doc ->
     getMyDID env st = Ok doc st []).
Proof.
  intros Hreach. split.
  - intros env doc Hs E. rewrite getMyDID_eq in E.
    destruct (DIDDocument.isActive (didDocuments_at st (msg_sender env))) eqn:Hact;
      [|discriminate].
    injection E as <-.
    pose proof (reachable_index_consistent st Hreach _ Hs Hact) as Hidx.
    rewrite resolveDID_eq, Hidx, Hact. apply Z.eqb_neq in Hs. by rewrite Hs.
  - intros d doc env E Hs. rewrite resolveDID_eq in E.
    destruct (didToAddress_at st d =? 0); [discriminate|].
    destruct (DIDDocument.isActive (didDocuments_at st (didToAddress_at st d))) eqn:Hact;
      [|discriminate].
    injection E as <-.
    rewrite (reachable_owner_field st Hreach _ Hact) in Hs.
    by rewrite getMyDID_eq, Hs, Hact.
Qed.

Lemma getMyDID_resolveDID_agree_witness :
  resolveDID "did:x:1" st_alice
  = Ok (didDocuments_at st_alice alice) st_alice [].
Proof.
  destruct (getMyDID_resolveDID_agree (H := toy_evm) st_alice st_alice_reachable)
    as [Hmine _].
  apply (Hmine (mkEnv alice 1700000200) (didDocuments_at st_alice alice)).
  - discriminate.
  - vm_compute; reflexivity.
Defined.

(** ** Updating the key, and deactivated accounts *)

(** X1. [updateDIDPublicKey] reverts for a caller without an active
    document and for an empty key.  When it returns, the caller's document
    has the new key and the time of the call as [updatedAt], with its
    owner, DID, active flag and [createdAt] as before; every other
    document, the reverse index, the ledgers, the issuer set, the
    administrator, the oracle signer and both counters are unchanged, and
    one [DIDUpdated] event is emitted. *)
Theorem updateDIDPublicKey_frame env _pk st :
  (DIDDocument.isActive (didDocuments_at st (msg_sender env)) = false ->
   updateDIDPublicKey env _pk st = Revert "DID does not exist or is deactivated")
  /\
  (DIDDocument.isActive (didDocuments_at st (msg_sender env)) = true ->
   _pk = "" ->
   updateDIDPublicKey env _pk st = Revert "Public key cannot be empty")
  /\
  (forall st' log,
     updateDIDPublicKey env _pk st = Ok tt st' log ->
     let d := didDocuments_at st (msg_sender env) in
     didDocuments_at st' (msg_sender env)
     = DIDDocument.mk (DIDDocument.owner d) (DIDDocument.did d) _pk true
         (DIDDocument.createdAt d) (block_timestamp env) /\
     (forall a, a <> msg_sender env -> didDocuments_at st' a = didDocuments_at st a) /\
     didToAddress st' = didToAddress st /\
     verificationResults st' = verificationResults st /\
     zkProofs st' = zkProofs st /\
     authorizedIssuers st' = authorizedIssuers st /\
     owner st' = owner st /\ oracleSigner st' = oracleSigner st /\
     totalDIDs st' = totalDIDs st /\ totalVerifications st' = totalVerifications st /\
     log = [DIDUpdated (msg_sender env) (DIDDocument.did d) (block_timestamp env)]).
Proof.
  rewrite updateDIDPublicKey_eq. split; [|split].
  - intros Ha. by rewrite Ha.
  - intros Ha ->. by rewrite Ha.
  - intros st' log E. split_ifs_hyp. injection E as <- <-.
    unfold updateDIDPublicKey_post. cbn zeta. rewrite didDocuments_at_insert.
    repeat split.
    + match goal with
      | Hg : DIDDocument.isActive _ = true |- _ =>
          unfold DIDDocument.set_updatedAt, DIDDocument.set_publicKeyBase58;
          cbn; by rewrite Hg
      end.
    + intros a Ha. by apply didDocuments_at_insert_ne.
Qed.

Lemma updateDIDPublicKey_frame_witness :
  didDocuments_at (updateDIDPublicKey_post (mkEnv alice 1700000200) "k2" st_alice) alice
  = DIDDocument.mk alice "did:x:1" "k2" true 1700000100 1700000200.
Proof.
  destruct (updateDIDPublicKey_frame (mkEnv alice 1700000200) "k2" st_alice)
    as (_ & _ & Hok).
  destruct (Hok (updateDIDPublicKey_post (mkEnv alice 1700000200) "k2" st_alice)
              [DIDUpdated alice "did:x:1" 1700000200]) as (Hdoc & _).
  - vm_compute; reflexivity.
  - etransitivity; [exact Hdoc|vm_compute; reflexivity].
Defined.

(** X5. Once [deactivateDID] has returned, the account can no longer act
    through its document: its [getMyDID], [updateDIDPublicKey],
    [deactivateDID] and [recordVerification] all revert, and [resolveDID]
    of the DID it held reverts with "DID not found". *)
Theorem deactivated_account_is_locked_out `{EVM} env0 st0 st1 log0 :
  deactivateDID env0 st0 = Ok tt st1 log0 ->
  forall env, msg_sender env = msg_sender env0 ->
    getMyDID env st1 = Revert "No active DID" /\
    (forall k, updateDIDPublicKey env k st1
               = Revert "DID does not exist or is deactivated") /\
    deactivateDID env st1 = Revert "DID does not exist or is deactivated" /\
    (forall h subj b c cred sig,
       recordVerification env h subj b c cred sig st1
       = Revert "DID does not exist or is deactivated") /\
    resolveDID (DIDDocument.did (didDocuments_at st0 (msg_sender env0))) st1
    = Revert "DID not found".
Proof.
  intros E env Hs. apply deactivateDID_Ok_post in E as [_ ->].
  assert (Hin : DIDDocument.isActive
                  (didDocuments_at (deactivateDID_post env0 st0) (msg_sender env)) = false).
  { rewrite Hs, deactivateDID_post_document. reflexivity. }
  repeat split; intros;
    rewrite ?getMyDID_eq, ?updateDIDPublicKey_eq, ?deactivateDID_eq,
      ?recordVerification_eq, ?resolveDID_eq, ?Hin, ?deactivateDID_post_index;
    reflexivity.
Qed.

Lemma deactivated_account_is_locked_out_witness :
  getMyDID (mkEnv alice 1700000400)
    (deactivateDID_post (mkEnv alice 1700000300) st_alice) = Revert "No active DID"
  /\
  resolveDID "did:x:1" (deactivateDID_post (mkEnv alice 1700000300) st_alice)
  = Revert "DID not found".
Proof.
  destruct (deactivated_account_is_locked_out (H := toy_evm)
              (mkEnv alice 1700000300) st_alice
              (deactivateDID_post (mkEnv alice 1700000300) st_alice)
              [DIDDeactivated alice "did:x:1" 1700000300])
    with (env := mkEnv alice 1700000400) as (Hmine & _ & _ & _ & Hres).
  - vm_compute; reflexivity.
  - reflexivity.
  - split; [exact Hmine|]. etransitivity; [|exact Hres]. reflexivity.
Defined.

(** ** Reading the verification ledger *)

Section LedgerReads.

Context `{EVM}.

Lemma recordVerification_Ok_post env h subj b c cred sig st st' log :
  recordVerification env h subj b c cred sig st = Ok tt st' log ->
  st' = recordVerification_post env h subj b c cred st /\
  DIDDocument.isActive (didDocuments_at st (msg_sender env)) = true /\
  h <> 0 /\ c <= 10000.
Proof.
  rewrite recordVerification_eq. intros E. split_ifs_hyp. injection E as <- _.
  repeat match goal with
         | Hg : (_ =? _) = false |- _ => apply Z.eqb_neq in Hg
         | Hg : (_ <=? _) = true |- _ => apply Z.leb_le in Hg
         end.
  auto.
Qed.

Lemma recordVerification_post_record env h subj b c cred st :
  verificationResults_at (recordVerification_post env h subj b c cred st) h
  = VerificationResult.mk h subj (DIDDocument.did (didDocuments_at st (msg_sender env)))
      b c (block_timestamp env) cred.
Proof.
  unfold recordVerification_post.
  change (verificationResults_at (set_totalVerifications ?n ?s) ?x)
    with (verificationResults_at s x).
  apply verificationResults_at_insert.
Qed.

Lemma transact_records_wellformed st env c :
  active_did_nonempty st ->
  records_wellformed st -> records_wellformed (fst (transact st env c)).
Proof.
  intros Hne Hinv. destruct (mutating c) eqn:Hmut; [|by rewrite transact_view].
  call_cases c; try discriminate Hmut; try assumption.
  intros h r. unfold recordVerification_post.
  cbn [verificationResults set_totalVerifications set_verificationResults].
  destruct (decide (_imageHash = h)) as [<-|Hh].
  - rewrite lookup_insert_eq. intros [= <-]. cbn.
    repeat match goal with
           | Hg : (_ =? _) = false |- _ => apply Z.eqb_neq in Hg
           | Hg : (_ <=? _) = true |- _ => apply Z.leb_le in Hg
           end.
    repeat split; try assumption.
    apply nonempty_iff, Hne. assumption.
  - rewrite lookup_insert_ne by assumption. apply Hinv.
Qed.

Lemma reachable_records_wellformed st : reachable st -> records_wellformed st.
Proof.
  induction 1 as [env sg Hs|st env c Hr IH Hs].
  - intros h r Hl. cbn in Hl. by rewrite lookup_empty in Hl.
  - apply transact_records_wellformed; [by apply reachable_active_did_nonempty|done].
Qed.

End LedgerReads.

(** X6. [isImageVerified] answers [true] exactly when [getVerification]
    returns, and for a hash with no stored record the first answers
    [false] and the second reverts.  After a [recordVerification] that
    returns in a block with a positive timestamp, [getVerification] of the
    hash returns the record just written; in a block with timestamp 0
    the record is written with timestamp 0 and both queries treat the hash
    as not verified. *)
Theorem verification_queries `{EVM} :
  (forall st h,
     isImageVerified h st = Ok true st [] <->
     getVerification h st = Ok (verificationResults_at st h) st [])
  /\
  (forall st h,
     verificationResults st !! h = None ->
     isImageVerified h st = Ok false st [] /\
     getVerification h st = Revert "Verification not found")
  /\
  (forall env h subj b c cred sig st st' log,
     recordVerification env h subj b c cred sig st = Ok tt st' log ->
     0 < block_timestamp env ->
     isImageVerified h st' = Ok true st' [] /\
     getVerification h st'
     = Ok (VerificationResult.mk h subj
             (DIDDocument.did (didDocuments_at st (msg_sender env)))
             b c (block_timestamp env) cred) st' [])
  /\
  (forall env h subj b c cred sig st st' log,
     recordVerification env h subj b c cred sig st = Ok tt st' log ->
     block_timestamp env = 0 ->
     isImageVerified h st' = Ok false st' [] /\
     getVerification h st' = Revert "Verification not found").
Proof.
  repeat apply conj.
  - intros st h. rewrite isImageVerified_eq, getVerification_eq.
    destruct (0 <? _); split; intros E; try discriminate E; reflexivity.
  - intros st h Hnone. rewrite isImageVerified_eq, getVerification_eq.
    unfold verificationResults_at. rewrite Hnone. auto.
  - intros env h subj b c cred sig st st' log E Hts.
    apply recordVerification_Ok_post in E as (-> & _).
    rewrite isImageVerified_eq, getVerification_eq, recordVerification_post_record. cbn.
    apply Z.ltb_lt in Hts. rewrite Hts. auto.
  - intros env h subj b c cred sig st st' log E Hts.
    apply recordVerification_Ok_post in E as (-> & _).
    rewrite isImageVerified_eq, getVerification_eq, recordVerification_post_record. cbn.
    rewrite Hts. auto.
Qed.

Lemma verification_queries_witness :
  getVerification 170 st_alice = Revert "Verification not found" /\
  getVerification 170 st_recorded
  = Ok (VerificationResult.mk 170 "did:x:1" "did:x:1" true 9200 1700000200 99)
       st_recorded [].
Proof.
  destruct (verification_queries (H := toy_evm)) as (_ & Hnone & Hget & _).
  split.
  - apply Hnone. vm_compute; reflexivity.
  - destruct (Hget (mkEnv alice 1700000200) 170 "did:x:1"%string true 9200 99 sig_9200
                st_alice st_recorded
                [VerificationRecorded 170 "did:x:1" true 9200 1700000200])
      as (_ & Hrec).
    + vm_compute; reflexivity.
    + reflexivity.
    + etransitivity; [exact Hrec|]. vm_compute; reflexivity.
Defined.

(** X7. In a storage reachable from deployment, every record that
    [getVerification] returns for a hash carries that hash, which is not
    zero, a confidence of at most 10000, a non-empty issuer DID and a
    positive timestamp. *)
Theorem getVerification_record_wellformed `{EVM} st h r :
  reachable st ->
  getVerification h st = Ok r st [] ->
  VerificationResult.imageHash r = h /\ h <> 0 /\
  VerificationResult.confidence r <= 10000 /\
  VerificationResult.issuerDid r <> "" /\
  0 < VerificationResult.timestamp r.
Proof.
  intros Hreach E. rewrite getVerification_eq in E.
  destruct (0 <? VerificationResult.timestamp (verificationResults_at st h)) eqn:Hts;
    [|discriminate].
  injection E as <-. apply Z.ltb_lt in Hts.
  unfold verificationResults_at in *.
  destruct (verificationResults st !! h) as [r|] eqn:Hl; [|cbn in Hts; lia].
  destruct (reachable_records_wellformed st Hreach h r Hl) as (? & ? & ? & ?).
  cbn in *. auto.
Qed.

Lemma st_recorded_reachable : reachable (H := toy_evm) st_recorded.
Proof. apply reachable_transact; [apply st_alice_reachable|discriminate]. Qed.

Lemma getVerification_record_wellformed_witness :
  VerificationResult.confidence (verificationResults_at st_recorded 170) <= 10000.
Proof.
  destruct (getVerification_record_wellformed (H := toy_evm) st_recorded 170
              (verificationResults_at st_recorded 170) st_recorded_reachable)
    as (_ & _ & Hc & _).
  - vm_compute; reflexivity.
  - exact Hc.
Defined.

(** X8. The issuer of a record is the submitter: after a
    [recordVerification] that returns, in a reachable storage and for a
    caller other than the zero address, the stored [issuerDid] is the DID
    of the caller's own document, and [resolveDID] of it returns that
    document, whose [owner] is the caller. *)
Theorem recorded_issuer_is_submitter `{EVM} env h subj b c cred sig st st' log :
  reachable st -> msg_sender env <> 0 ->
  recordVerification env h subj b c cred sig st = Ok tt st' log ->
  VerificationResult.issuerDid (verificationResults_at st' h)
  = DIDDocument.did (didDocuments_at st (msg_sender env))
  /\
  resolveDID (VerificationResult.issuerDid (verificationResults_at st' h)) st'
  = Ok (didDocuments_at st (msg_sender env)) st' []
  /\
  DIDDocument.owner (didDocuments_at st (msg_sender env)) = msg_sender env.
Proof.
  intros Hreach Hs E.
  apply recordVerification_Ok_post in E as (-> & Hact & _).
  rewrite recordVerification_post_record. cbn [VerificationResult.issuerDid].
  split; [reflexivity|]. split.
  - rewrite resolveDID_eq.
    change (didToAddress_at (recordVerification_post ?e ?h ?s ?b ?c ?cr ?st) ?x)
      with (didToAddress_at st x).
    change (didDocuments_at (recordVerification_post ?e ?h ?s ?b ?c ?cr ?st) ?x)
      with (didDocuments_at st x).
    rewrite (reachable_index_consistent st Hreach _ Hs Hact), Hact.
    apply Z.eqb_neq in Hs. by rewrite Hs.
  - by apply (reachable_owner_field st Hreach).
Qed.

Lemma recorded_issuer_is_submitter_witness :
  VerificationResult.issuerDid (verificationResults_at st_recorded 170) = "did:x:1".
Proof.
  destruct (recorded_issuer_is_submitter (H := toy_evm)
              (mkEnv alice 1700000200) 170 "did:x:1"%string true 9200 99 sig_9200
              st_alice st_recorded
              [VerificationRecorded 170 "did:x:1" true 9200 1700000200]
              st_alice_reachable) as (Hiss & _).
  - discriminate.
  - vm_compute; reflexivity.
  - etransitivity; [exact Hiss|]. vm_compute; reflexivity.
Defined.

(** ** The signature verifier *)

Section SignatureBytes.

Context `{EVM}.

Lemma Z_of_byte_range b : 0 <= Z_of_byte b < 256.
Proof.
  unfold Z_of_byte. pose proof (Byte.to_N_bounded b) as Hb. lia.
Qed.

Lemma sig_v_snoc body b : length body = 64%nat -> sig_v (body ++ [b]) = Z_of_byte b.
Proof.
  intros Hl. unfold sig_v.
  rewrite lookup_app_r by lia. rewrite Hl. reflexivity.
Qed.

Lemma sig_r_snoc body b : length body = 64%nat -> sig_r (body ++ [b]) = sig_r body.
Proof. intros Hl. unfold sig_r. by rewrite take_app_le by lia. Qed.

Lemma sig_s_snoc body b : length body = 64%nat -> sig_s (body ++ [b]) = sig_s body.
Proof.
  intros Hl. unfold sig_s. rewrite drop_app_le by lia.
  rewrite take_app_le; [reflexivity|]. rewrite length_drop. lia.
Qed.

End SignatureBytes.

(** X9. [recoverSigner] reverts with "Invalid signature length" unless the
    signature has 65 bytes, and with "Invalid signature v value" unless
    its last byte is 0, 1, 27 or 28; otherwise it returns what [ecrecover]
    answers for the digest, the words [r] and [s], and [v] raised by 27
    when below 27. *)
Theorem recoverSigner_accepts `{EVM} d sig st :
  (length sig <> 65%nat -> recoverSigner d sig st = Revert "Invalid signature length")
  /\
  (length sig = 65%nat ->
   ~ (sig_v sig = 0 \/ sig_v sig = 1 \/ sig_v sig = 27 \/ sig_v sig = 28) ->
   recoverSigner d sig st = Revert "Invalid signature v value")
  /\
  (length sig = 65%nat ->
   sig_v sig = 0 \/ sig_v sig = 1 \/ sig_v sig = 27 \/ sig_v sig = 28 ->
   recoverSigner d sig st
   = Ok (ecrecover d (if sig_v sig <? 27 then sig_v sig + 27 else sig_v sig)
           (sig_r sig) (sig_s sig)) st []).
Proof.
  rewrite recoverSigner_eq. unfold v_ok, recovered, normalize_v.
  split; [|split].
  - intros Hl. destruct (Z.eqb_spec (Z.of_nat (length sig)) 65); [lia|reflexivity].
  - intros Hl Hv. rewrite Hl. cbn [Z.of_nat Pos.of_succ_nat Pos.succ Z.eqb Pos.eqb].
    assert (Hlt : 0 <= sig_v sig < 256).
    { unfold sig_v. destruct (sig !! 64%nat); [apply Z_of_byte_range|lia]. }
    destruct (sig_v sig <? 27) eqn:E27;
      [apply Z.ltb_lt in E27|apply Z.ltb_ge in E27];
      destruct (Z.eqb_spec (sig_v sig + 27) 27), (Z.eqb_spec (sig_v sig + 27) 28),
        (Z.eqb_spec (sig_v sig) 27), (Z.eqb_spec (sig_v sig) 28);
      cbn [orb]; try reflexivity; exfalso; apply Hv; lia.
  - intros Hl Hv. rewrite Hl. cbn [Z.of_nat Pos.of_succ_nat Pos.succ Z.eqb Pos.eqb].
    destruct Hv as [-> | [-> | [-> | ->]]]; reflexivity.
Qed.

Lemma recoverSigner_accepts_witness :
  recoverSigner (H := toy_evm) 5 (be_bytes 32 1 ++ be_bytes 32 2 ++ [x01]) st_deployed
  = Ok (ecrecover (EVM := toy_evm) 5 28 1 2) st_deployed []
  /\
  recoverSigner (H := toy_evm) 5 (be_bytes 32 1 ++ be_bytes 32 2 ++ [x02]) st_deployed
  = Revert "Invalid signature v value"
  /\
  recoverSigner (H := toy_evm) 5 (be_bytes 32 1 ++ be_bytes 32 2) st_deployed
  = Revert "Invalid signature length".
Proof.
  split; [|split].
  - etransitivity.
    + apply (recoverSigner_accepts (H := toy_evm)); [reflexivity|].
      right; left; vm_compute; reflexivity.
    + vm_compute; reflexivity.
  - apply (recoverSigner_accepts (H := toy_evm)); [reflexivity|].
    vm_compute. intros [E|[E|[E|E]]]; discriminate E.
  - apply (recoverSigner_accepts (H := toy_evm)). vm_compute. discriminate.
Defined.

(** X10. Every signature has two byte strings that [recoverSigner] treats
    alike: with the same 64 bytes of [r] and [s], the last byte 0 gives the
    result of 27 and the last byte 1 the result of 28, so
    [recordVerification] accepts either form of a signature. *)
Theorem recoverSigner_two_encodings `{EVM} d body st :
  length body = 64%nat ->
  recoverSigner d (body ++ [x00]) st = recoverSigner d (body ++ [x1b]) st /\
  recoverSigner d (body ++ [x01]) st = recoverSigner d (body ++ [x1c]) st /\
  (forall env h subj b c cred,
     recordVerification env h subj b c cred (body ++ [x00]) st
     = recordVerification env h subj b c cred (body ++ [x1b]) st).
Proof.
  intros Hl.
  assert (Hrec : forall d b, recoverSigner d (body ++ [b]) st
            = if (normalize_v (Z_of_byte b) =? 27) || (normalize_v (Z_of_byte b) =? 28)
              then Ok (ecrecover d (normalize_v (Z_of_byte b)) (sig_r body) (sig_s body))
                      st []
              else Revert "Invalid signature v value").
  { intros d' b. rewrite recoverSigner_eq. unfold v_ok, recovered.
    rewrite sig_v_snoc, sig_r_snoc, sig_s_snoc by assumption.
    rewrite length_app, Hl. reflexivity. }
  split; [|split].
  - by rewrite !Hrec.
  - by rewrite !Hrec.
  - intros env h subj b c cred. rewrite !recordVerification_eq.
    unfold v_ok, recovered.
    rewrite !sig_v_snoc, !sig_r_snoc, !sig_s_snoc by assumption.
    rewrite !length_app, Hl. reflexivity.
Qed.

Lemma recoverSigner_two_encodings_witness :
  recoverSigner (H := toy_evm) 5 ((be_bytes 32 1 ++ be_bytes 32 2) ++ [x00]) st_deployed
  = recoverSigner (H := toy_evm) 5 ((be_bytes 32 1 ++ be_bytes 32 2) ++ [x1b]) st_deployed.
Proof.
  apply (recoverSigner_two_encodings (H := toy_evm)). reflexivity.
Defined.

(** X11. Reading a signature inverts writing it: for [r] and [s] below
    2^256, the 65 bytes made of [r] and [s], 32 bytes each, most
    significant first, and one byte [v], are read back as [r], [s] and
    [v]. *)
Theorem signature_parse_serialize r s (v : byte) :
  0 <= r < 2 ^ 256 -> 0 <= s < 2 ^ 256 ->
  let sig := be_bytes 32 r ++ be_bytes 32 s ++ [v] in
  length sig = 65%nat /\ sig_r sig = r /\ sig_s sig = s /\ sig_v sig = Z_of_byte v.
Proof.
  intros Hr Hs sig. subst sig.
  assert (Hlr : length (be_bytes 32 r) = 32%nat) by apply length_be_bytes.
  assert (Hls : length (be_bytes 32 s) = 32%nat) by apply length_be_bytes.
  split; [|split; [|split]].
  - rewrite !length_app, Hlr, Hls. reflexivity.
  - unfold sig_r. rewrite take_app_length' by assumption.
    rewrite be_decode_be_bytes, word_bound. by apply Z.mod_small.
  - unfold sig_s. rewrite drop_app_length' by assumption.
    rewrite take_app_length' by assumption.
    rewrite be_decode_be_bytes, word_bound. by apply Z.mod_small.
  - unfold sig_v. rewrite lookup_app_r by lia. rewrite Hlr.
    rewrite lookup_app_r by lia. rewrite Hls. reflexivity.
Qed.

Lemma signature_parse_serialize_witness :
  sig_r (be_bytes 32 7 ++ be_bytes 32 9 ++ [x1b]) = 7 /\
  sig_s (be_bytes 32 7 ++ be_bytes 32 9 ++ [x1b]) = 9.
Proof.
  destruct (signature_parse_serialize 7 9 x1b) as (_ & Hr & Hs & _);
    [lia|lia|].
  split; [exact Hr|exact Hs].
Defined.

(** ** Administration *)

Section Administration.

Context `{EVM}.

Lemma transact_oracleSigner_nonzero st env c :
  oracleSigner st <> 0 -> oracleSigner (fst (transact st env c)) <> 0.
Proof.
  intros Hinv. destruct (mutating c) eqn:Hmut; [|by rewrite transact_view].
  call_cases c; try discriminate Hmut; try assumption.
  cbn [oracleSigner set_oracleSigner].
  match goal with Hg : (_newSigner =? 0) = false |- _ => by apply Z.eqb_neq in Hg end.
Qed.

Lemma run_oracleSigner_nonzero txs st :
  oracleSigner st <> 0 -> oracleSigner (run st txs) <> 0.
Proof.
  revert st. induction txs as [|[env c] txs IH]; intros st Hst; cbn [run]; [exact Hst|].
  apply IH. by apply transact_oracleSigner_nonzero.
Qed.

Lemma transact_counters st env c :
  totalDIDs (fst (transact st env c))
  = totalDIDs st
    + (if is_registerDID c && succeeded (snd (transact st env c)) then 1 else 0) /\
  totalVerifications (fst (transact st env c))
  = totalVerifications st
    + (if is_recordVerification c && succeeded (snd (transact st env c)) then 1 else 0).
Proof.
  call_cases c; cbn [is_registerDID is_recordVerification succeeded andb];
    unfold registerDID_post, updateDIDPublicKey_post, deactivateDID_post,
      recordVerification_post, submitZKProof_post, transferOwnership_post;
    cbn [totalDIDs totalVerifications set_totalDIDs set_totalVerifications
         set_didDocuments set_didToAddress set_verificationResults set_zkProofs
         set_authorizedIssuers set_owner set_oracleSigner];
    lia.
Qed.

Lemma transact_proofs_pending st env c :
  proofs_pending st -> proofs_pending (fst (transact st env c)).
Proof.
  intros Hinv. destruct (mutating c) eqn:Hmut; [|by rewrite transact_view].
  call_cases c; try discriminate Hmut; try assumption.
  intros h p. unfold submitZKProof_post. cbn [zkProofs set_zkProofs].
  destruct (decide (_imageHash = h)) as [<-|Hh].
  - rewrite lookup_insert_eq. intros [= <-]. cbn.
    repeat match goal with
           | Hg : (_ =? _) = false |- _ => apply Z.eqb_neq in Hg
           end.
    auto.
  - rewrite lookup_insert_ne by assumption. apply Hinv.
Qed.

Lemma run_proofs_pending txs st : proofs_pending st -> proofs_pending (run st txs).
Proof.
  revert st. induction txs as [|[env c] txs IH]; intros st Hst; cbn [run]; [exact Hst|].
  apply IH. by apply transact_proofs_pending.
Qed.

End Administration.

(** X12. A contract deployed with a non-zero oracle signer never has the
    zero address as oracle signer, whatever transactions follow; and in a
    storage whose oracle signer is not the zero address, a signature for
    which [ecrecover] answers the zero address is rejected by
    [recordVerification]. *)
Theorem oracleSigner_stays_nonzero `{EVM} env _oracleSigner txs :
  _oracleSigner <> 0 ->
  oracleSigner (run (constructor env _oracleSigner) txs) <> 0 /\
  (forall env' h subj b c cred sig,
     recovered (ethSignedHash h b c) sig = 0 ->
     exists reason,
       recordVerification env' h subj b c cred sig
         (run (constructor env _oracleSigner) txs) = Revert reason).
Proof.
  intros Hs.
  assert (Hnz : oracleSigner (run (constructor env _oracleSigner) txs) <> 0)
    by (by apply run_oracleSigner_nonzero).
  split; [exact Hnz|].
  intros env' h subj b c cred sig Hrec.
  destruct (recordVerification_wrong_signer env'
              (run (constructor env _oracleSigner) txs) h subj b c cred sig)
    as (reason & E & _); [congruence|eauto].
Qed.

Lemma oracleSigner_stays_nonzero_witness :
  exists reason,
    recordVerification (H := toy_evm) (mkEnv alice 1700000200)
      170 "did:x:1" true 9200 99 sig_zero st_alice = Revert reason.
Proof.
  destruct (oracleSigner_stays_nonzero (H := toy_evm) (mkEnv deployer 1700000000) oracle1
              [(mkEnv alice 1700000100, CallRegisterDID "did:x:1" "k1")])
    as [_ Hrej]; [discriminate|].
  apply (Hrej (mkEnv alice 1700000200) 170 "did:x:1"%string true 9200 99 sig_zero).
  vm_compute; reflexivity.
Defined.

(** X13. Only the administrator administers: a transaction whose sender is
    not the current [owner] leaves the [owner], the oracle signer and the
    authorized-issuer set as they were, whatever it calls. *)
Theorem only_owner_administers `{EVM} st env c :
  msg_sender env <> owner st ->
  owner (fst (transact st env c)) = owner st /\
  oracleSigner (fst (transact st env c)) = oracleSigner st /\
  authorizedIssuers (fst (transact st env c)) = authorizedIssuers st.
Proof.
  intros Hs. apply Z.eqb_neq in Hs.
  call_cases c; try (rewrite Hs in *; discriminate); auto.
Qed.

Lemma only_owner_administers_witness :
  oracleSigner (fst (transact (H := toy_evm) st_alice (mkEnv alice 1700000200)
                       (CallSetOracleSigner oracle2))) = oracleSigner st_alice
  /\
  owner (fst (transact (H := toy_evm) st_alice (mkEnv alice 1700000200)
                (CallTransferOwnership alice))) = owner st_alice.
Proof.
  split.
  - apply (only_owner_administers (H := toy_evm)). discriminate.
  - apply (only_owner_administers (H := toy_evm)). discriminate.
Defined.

(** X14. Documents are self-sovereign: a transaction never changes the
    document of an account other than its sender; and in a reachable
    storage, with a sender other than the zero address, it never changes
    a reverse-index entry bound to another account. *)
Theorem documents_self_sovereign `{EVM} st env c a :
  a <> msg_sender env ->
  didDocuments_at (fst (transact st env c)) a = didDocuments_at st a
  /\
  (reachable st -> msg_sender env <> 0 -> a <> 0 ->
   forall d, didToAddress_at st d = a ->
     didToAddress_at (fst (transact st env c)) d = a).
Proof.
  intros Ha. split.
  - call_cases c; try reflexivity.
    + apply registerDID_post_document_ne. congruence.
    + unfold updateDIDPublicKey_post. apply didDocuments_at_insert_ne. congruence.
    + unfold deactivateDID_post.
      change (didDocuments_at (set_didToAddress ?f ?s) ?x) with (didDocuments_at s x).
      apply didDocuments_at_insert_ne. congruence.
  - intros Hreach Hs Ha0 d Hd.
    pose proof (reachable_index_consistent st Hreach) as Hcons.
    pose proof (reachable_index_sound st Hreach) as Hsound.
    call_cases c; try assumption.
    + (* registerDID *)
      unfold registerDID_post.
      change (didToAddress_at (set_totalDIDs ?n ?s) ?x) with (didToAddress_at s x).
      rewrite didToAddress_at_insert_ne; [exact Hd|].
      intros ->.
      match goal with
      | Hg : negb (didToAddress_at _ _ =? 0) = false |- _ =>
          apply negb_false_iff, Z.eqb_eq in Hg; congruence
      end.
    + (* deactivateDID *)
      unfold deactivateDID_post.
      rewrite didToAddress_at_delete_ne; [exact Hd|].
      intros E.
      match goal with
      | Hg : DIDDocument.isActive (didDocuments_at st (msg_sender env)) = true |- _ =>
          pose proof (Hcons _ Hs Hg) as Hmine
      end.
      rewrite E in Hmine. congruence.
Qed.

Lemma documents_self_sovereign_witness :
  didDocuments_at
    (fst (transact (H := toy_evm) st_alice (mkEnv bob 1700000200)
            (CallRegisterDID "did:x:2" "k2"))) alice
  = didDocuments_at st_alice alice
  /\
  didToAddress_at
    (fst (transact (H := toy_evm) st_alice (mkEnv bob 1700000200)
            (CallRegisterDID "did:x:2" "k2"))) "did:x:1" = alice.
Proof.
  destruct (documents_self_sovereign (H := toy_evm) st_alice (mkEnv bob 1700000200)
              (CallRegisterDID "did:x:2" "k2") alice) as [Hdoc Hidx]; [discriminate|].
  split; [exact Hdoc|].
  apply Hidx; [apply st_alice_reachable|discriminate|discriminate|].
  vm_compute; reflexivity.
Defined.

(** X15. [getStats] counts the calls that returned: after any
    transactions from deployment, [totalDIDs] is the number of
    [registerDID] calls that returned and [totalVerifications] the number
    of [recordVerification] calls that returned. *)
Theorem getStats_counts_returned_calls `{EVM} env _oracleSigner txs :
  getStats (run (constructor env _oracleSigner) txs)
  = Ok (returned is_registerDID (constructor env _oracleSigner) txs,
        returned is_recordVerification (constructor env _oracleSigner) txs)
       (run (constructor env _oracleSigner) txs) [].
Proof.
  assert (G : forall txs st,
            totalDIDs (run st txs) = totalDIDs st + returned is_registerDID st txs /\
            totalVerifications (run st txs)
            = totalVerifications st + returned is_recordVerification st txs).
  { clear txs. induction txs as [|[e c] txs IH]; intros st; cbn [run returned]; [lia|].
    destruct (IH (fst (transact st e c))) as [IH1 IH2].
    destruct (transact_counters st e c) as [H1 H2]. lia. }
  destruct (G txs (constructor env _oracleSigner)) as [G1 G2].
  unfold getStats, read. rewrite G1, G2. reflexivity.
Qed.

(** ** The event log *)

(** X16. What a transaction leaves in the event log: a call that does not
    return leaves nothing; [registerDID], [updateDIDPublicKey],
    [deactivateDID], [recordVerification], [submitZKProof],
    [authorizeIssuer] and [revokeIssuer] leave exactly their one event;
    [setOracleSigner], [transferOwnership] and the [view] functions leave
    none; and no transaction ever emits [ZKProofVerified]. *)
Theorem transaction_events `{EVM} st env c :
  (succeeded (snd (transact st env c)) = false -> events (snd (transact st env c)) = [])
  /\
  (succeeded (snd (transact st env c)) = true ->
   events (snd (transact st env c))
   = match c with
     | CallRegisterDID d _ => [DIDRegistered (msg_sender env) d (block_timestamp env)]
     | CallUpdateDIDPublicKey _ =>
         [DIDUpdated (msg_sender env)
            (DIDDocument.did (didDocuments_at st (msg_sender env))) (block_timestamp env)]
     | CallDeactivateDID =>
         [DIDDeactivated (msg_sender env)
            (DIDDocument.did (didDocuments_at st (msg_sender env))) (block_timestamp env)]
     | CallRecordVerification h subj b conf _ _ =>
         [VerificationRecorded h subj b conf (block_timestamp env)]
     | CallSubmitZKProof h p _ => [ZKProofSubmitted h p (block_timestamp env)]
     | CallAuthorizeIssuer a => [IssuerAuthorized a (block_timestamp env)]
     | CallRevokeIssuer a => [IssuerRevoked a (block_timestamp env)]
     | _ => []
     end)
  /\
  (forall h v t, ~ In (ZKProofVerified h v t) (events (snd (transact st env c)))).
Proof.
  split; [|split].
  - destruct (snd (transact st env c)); [discriminate|reflexivity..].
  - call_cases c; cbn [succeeded events app]; intros Hok; try discriminate Hok;
      reflexivity.
  - intros h v t. call_cases c; cbn [events app In]; intros Hin;
      repeat match goal with
             | Hg : _ \/ _ |- _ => destruct Hg
             | Hg : False |- _ => destruct Hg
             | Hg : _ = ZKProofVerified _ _ _ |- _ => discriminate Hg
             end.
Qed.

Lemma transaction_events_witness :
  events (snd (transact (H := toy_evm) st_alice (mkEnv deployer 1700000500)
                 (CallTransferOwnership bob))) = []
  /\
  events (snd (transact (H := toy_evm) st_deployed (mkEnv alice 1700000100)
                 (CallRegisterDID "did:x:1" "k1")))
  = [DIDRegistered alice "did:x:1" 1700000100].
Proof.
  split.
  - refine (proj1 (proj2 (transaction_events (H := toy_evm) st_alice
                            (mkEnv deployer 1700000500) (CallTransferOwnership bob))) _).
    vm_compute; reflexivity.
  - refine (proj1 (proj2 (transaction_events (H := toy_evm) st_deployed
                            (mkEnv alice 1700000100) (CallRegisterDID "did:x:1" "k1"))) _).
    vm_compute; reflexivity.
Defined.

(** ** Commitments stay pending *)

(** X17. No transaction validates a commitment: after any transactions
    from deployment every commitment reads [isValid = false]; and when
    [verifyZKProof] answers [true], neither the content hash nor the
    expected proof hash is zero. *)
Theorem zk_proofs_never_validated `{EVM} env _oracleSigner txs h :
  ZKProof.isValid (zkProofs_at (run (constructor env _oracleSigner) txs) h) = false
  /\
  (forall e,
     verifyZKProof h e (run (constructor env _oracleSigner) txs)
     = Ok true (run (constructor env _oracleSigner) txs) [] ->
     h <> 0 /\ e <> 0).
Proof.
  assert (Hinv : proofs_pending (run (constructor env _oracleSigner) txs)).
  { apply run_proofs_pending. intros h' p Hl. cbn in Hl. by rewrite lookup_empty in Hl. }
  set (st := run (constructor env _oracleSigner) txs) in *.
  unfold zkProofs_at. split.
  - destruct (zkProofs st !! h) as [p|] eqn:Hl; [|reflexivity].
    by destruct (Hinv h p Hl).
  - intros e E. rewrite verifyZKProof_eq in E. unfold zkProofs_at in E.
    destruct (zkProofs st !! h) as [p|] eqn:Hl; [|discriminate E].
    destruct (Hinv h p Hl) as (_ & Hh & Hp). cbn in E.
    destruct (0 <? ZKProof.timestamp p); [|discriminate E].
    injection E as E. apply Z.eqb_eq in E. split; [exact Hh|congruence].
Qed.

Lemma zk_proofs_never_validated_witness :
  ZKProof.isValid
    (zkProofs_at
       (run (H := toy_evm) (constructor (mkEnv deployer 1700000000) oracle1)
          [(mkEnv alice 1700000100, CallSubmitZKProof 170 187 5)]) 170) = false
  /\ (187 : Z) <> 0.
Proof.
  destruct (zk_proofs_never_validated (H := toy_evm)
              (mkEnv deployer 1700000000) oracle1
              [(mkEnv alice 1700000100, CallSubmitZKProof 170 187 5)] 170)
    as [Hpending Htrue].
  split; [exact Hpending|].
  apply (Htrue 187). vm_compute; reflexivity.
Defined.

(** ** Authorizing and revoking issuers *)

(** X18. After the administrator's [authorizeIssuer(a)] has returned,
    [isAuthorizedIssuer(a)] answers [true] and a second
    [authorizeIssuer(a)] reverts with "Already authorized"; when [a] is
    not the administrator, [revokeIssuer(a)] then returns, after which
    [isAuthorizedIssuer] answers for every account what it answered before
    the two calls. *)
Theorem authorize_then_revoke env a st st1 log1 :
  authorizeIssuer env a st = Ok tt st1 log1 ->
  isAuthorizedIssuer a st1 = Ok true st1 [] /\
  authorizeIssuer env a st1 = Revert "Already authorized" /\
  (a <> owner st ->
   exists st2,
     revokeIssuer env a st1 = Ok tt st2 [IssuerRevoked a (block_timestamp env)] /\
     forall x, isAuthorizedIssuer x st2 = Ok (authorizedIssuers_at st x) st2 []).
Proof.
  intros E. rewrite authorizeIssuer_eq in E.
  destruct (msg_sender env =? owner st) eqn:Hown; [|discriminate].
  destruct (authorizedIssuers_at st a) eqn:Hauth; [discriminate|].
  injection E as <- _.
  unfold isAuthorizedIssuer, read.
  rewrite authorizeIssuer_eq, revokeIssuer_eq. cbn [owner set_authorizedIssuers].
  rewrite Hown, authorizedIssuers_at_insert.
  split; [reflexivity|]. split; [reflexivity|].
  intros Ha. apply Z.eqb_neq in Ha. rewrite Ha.
  eexists. split; [reflexivity|]. intros x. f_equal.
  destruct (decide (a = x)) as [<-|Hx].
  - by rewrite authorizedIssuers_at_insert.
  - by rewrite !authorizedIssuers_at_insert_ne.
Qed.

Lemma authorize_then_revoke_witness :
  isAuthorizedIssuer alice
    (set_authorizedIssuers (<[alice := true]>) st_alice)
  = Ok true (set_authorizedIssuers (<[alice := true]>) st_alice) [].
Proof.
  destruct (authorize_then_revoke (mkEnv deployer 1700000200) alice st_alice
              (set_authorizedIssuers (<[alice := true]>) st_alice)
              [IssuerAuthorized alice 1700000200]) as (Hyes & _).
  - vm_compute; reflexivity.
  - exact Hyes.
Defined.

(** ** The front end *)

Section FrontendFacts.

Import Frontend.

Lemma length_append (a b : string) :
  String.length (String.append a b) = (String.length a + String.length b)%nat.
Proof.
  induction a as [|c a IH]; [reflexivity|].
  change (S (String.length (String.append a b))
          = S (String.length a + String.length b)). by rewrite IH.
Qed.

Lemma substring_all (s : string) : String.substring 0 (String.length s) s = s.
Proof.
  induction s as [|c s IH]; [reflexivity|].
  change (String c (String.substring 0 (String.length s) s) = String c s). by rewrite IH.
Qed.

Lemma length_substring (s : string) n m :
  String.length (String.substring n m s) = Nat.min m (String.length s - n).
Proof.
  revert n m. induction s as [|c s IH]; intros [|n] [|m]; cbn; try reflexivity.
  - by rewrite IH, Nat.sub_0_r.
  - apply IH.
  - apply IH.
Qed.

Lemma append_inv_head (p a b : string) :
  String.append p a = String.append p b -> a = b.
Proof.
  induction p as [|c p IH]; intros E; [exact E|].
  apply IH. change (String c (String.append p a) = String c (String.append p b)) in E.
  congruence.
Qed.

Lemma randomId_cons b rest :
  exists hi lo,
    randomId (b :: rest) = String hi (String lo (randomId rest)) /\
    Byte.of_N (unhex_digit hi * 16 + unhex_digit lo) = Some b.
Proof. destruct b; do 2 eexists; split; reflexivity. Qed.

Lemma length_randomId bytes :
  String.length (randomId bytes) = (2 * length bytes)%nat.
Proof.
  induction bytes as [|b rest IH]; [reflexivity|].
  destruct (randomId_cons b rest) as (hi & lo & -> & _).
  cbn [String.length length]. rewrite IH. lia.
Qed.

Lemma unhex_randomId bytes : unhex (randomId bytes) = bytes.
Proof.
  induction bytes as [|b rest IH]; [reflexivity|].
  destruct (randomId_cons b rest) as (hi & lo & -> & Hb).
  cbn [unhex]. by rewrite Hb, IH.
Qed.

End FrontendFacts.

(** X19. The DID the front end generates from 16 random bytes: the
    identifier has 32 characters, two per byte, from which the bytes can
    be read back, so distinct bytes give distinct DIDs; the key is ["pk_"]
    followed by the whole identifier; and the contract's [registerDID]
    returns for this DID and key whenever the caller has no active
    document, the DID is not bound and the DID counter is below its
    maximum. *)
Theorem frontend_registerDID env bytes st :
  length bytes = 16%nat ->
  String.length (Frontend.randomId bytes) = 32%nat /\
  Frontend.unhex (Frontend.randomId bytes) = bytes /\
  (forall bytes', Frontend.new_did bytes' = Frontend.new_did bytes -> bytes' = bytes) /\
  Frontend.new_publicKey bytes = String.append "pk_" (Frontend.randomId bytes) /\
  (DIDDocument.isActive (didDocuments_at st (msg_sender env)) = false ->
   didToAddress_at st (Frontend.new_did bytes) = 0 ->
   totalDIDs st < max_uint256 ->
   registerDID env (Frontend.new_did bytes) (Frontend.new_publicKey bytes) st
   = Ok tt (registerDID_post env (Frontend.new_did bytes) (Frontend.new_publicKey bytes) st)
        [DIDRegistered (msg_sender env) (Frontend.new_did bytes) (block_timestamp env)]).
Proof.
  intros Hl.
  assert (Hlen : String.length (Frontend.randomId bytes) = 32%nat)
    by (rewrite length_randomId, Hl; reflexivity).
  split; [exact Hlen|]. split; [apply unhex_randomId|]. split; [|split].
  - intros bytes' E. unfold Frontend.new_did in E. apply append_inv_head in E.
    rewrite <- (unhex_randomId bytes'), <- (unhex_randomId bytes). by rewrite E.
  - unfold Frontend.new_publicKey. by rewrite <- Hlen, substring_all.
  - intros Ha Hfree Ht. rewrite registerDID_eq, Ha.
    apply Z.eqb_eq in Hfree. apply Z.ltb_lt in Ht. rewrite Hfree, Ht.
    reflexivity.
Qed.

Lemma frontend_registerDID_witness :
  Frontend.new_did sample_bytes = "did:deepfake:00010a0f107f80ffdeadbeef12345678" /\
  exists st' log,
    registerDID (mkEnv bob 1700000200) (Frontend.new_did sample_bytes)
      (Frontend.new_publicKey sample_bytes) st_alice = Ok tt st' log.
Proof.
  split; [reflexivity|].
  destruct (frontend_registerDID (mkEnv bob 1700000200) sample_bytes st_alice)
    as (_ & _ & _ & _ & Hreg); [reflexivity|].
  do 2 eexists. apply Hreg; vm_compute; reflexivity.
Defined.

(** X20. [formatAddress] shows nothing for a missing or empty address;
    for any other address it shows at most its first six characters,
    three dots and at most its last four: 13 characters for every address
    of six characters or more, however long the address is. *)
Theorem formatAddress_length :
  Frontend.formatAddress None = "" /\
  Frontend.formatAddress (Some "") = "" /\
  (forall a, a <> "" ->
     String.length (Frontend.formatAddress (Some a))
     = (Nat.min 6 (String.length a) + 3 + Nat.min 4 (String.length a))%nat) /\
  (forall a, (6 <= String.length a)%nat ->
     String.length (Frontend.formatAddress (Some a)) = 13%nat).
Proof.
  assert (G : forall a, a <> "" ->
     String.length (Frontend.formatAddress (Some a))
     = (Nat.min 6 (String.length a) + 3 + Nat.min 4 (String.length a))%nat).
  { intros a Ha. destruct a as [|c a]; [done|].
    unfold Frontend.formatAddress.
    rewrite !length_append, !length_substring. cbn [String.length]. lia. }
  split; [reflexivity|]. split; [reflexivity|]. split; [exact G|].
  intros a Hl. rewrite G; [lia|]. intros ->. cbn in Hl. lia.
Qed.

Lemma formatAddress_length_witness :
  Frontend.formatAddress (Some "0x52908400098527886E0F7030069857D2E4169EE7")
  = "0x5290...9EE7" /\
  String.length
    (Frontend.formatAddress (Some "0x52908400098527886E0F7030069857D2E4169EE7"))
  = 13%nat.
Proof.
  split; [reflexivity|].
  apply formatAddress_length. cbn. lia.
Defined.
